(** * feathers-google-datastore: the adapter's resolvers and [get]

    A shallow embedding of [src/index.js] (the adapter factory
    [datastoreAdapter] and the functions it closes over) together with
    the properties its specification states about them.

    The JavaScript closure state [adapter] is an explicit record that the
    embedded functions read through a state-and-exception monad; what
    JavaScript raises ([TypeError] on a property read from [undefined] or
    [null], on a call of something that is no function) is an exception of
    that monad.  Calls of [debug] only write a trace and are left out. *)

From Stdlib Require Import String Ascii List ZArith Bool Lia.
From ExtLib Require Import Structures.Monad Structures.MonadState Structures.MonadExc.
Import ListNotations.
Import MonadNotation.
Local Open Scope string_scope.
Local Open Scope monad_scope.
#[local] Set Warnings "-register-all".

(* ===================================================================== *)
(** ** JavaScript values *)
(* ===================================================================== *)

Module Js.

(** Arrays and objects have an identity (the location they live at):
    [===] and [!==] compare that identity, never the content.  Numbers
    are the integers (array lengths, numeric ids); strings are sequences
    of code units below 256.  Objects are plain data objects: an ordered
    list of own properties over [Object.prototype]; no value of this
    universe is a function.  [VDsInt] is the object made by the store
    client's [int]: it keeps the text it was made from. *)
Inductive value : Type :=
| VUndef
| VNull
| VBool (b : bool)
| VNum (n : Z)
| VStr (s : string)
| VArr (loc : nat) (elems : list value)
| VObj (loc : nat) (props : list (string * value))
| VDsInt (text : string).

Definition obj := list (string * value).

Inductive exn : Type :=
| TypeError.

Inductive result (A : Type) : Type :=
| Ok (x : A)
| Throw (e : exn).

Arguments Ok {A} x.
Arguments Throw {A} e.

(** [typeof v] *)
Definition typeof (v : value) : string :=
  match v with
  | VUndef => "undefined"
  | VNull => "object"
  | VBool _ => "boolean"
  | VNum _ => "number"
  | VStr _ => "string"
  | VArr _ _ => "object"
  | VObj _ _ => "object"
  | VDsInt _ => "object"
  end.

(** ToBoolean: what [if (v)] tests. *)
Definition truthy (v : value) : bool :=
  match v with
  | VUndef => false
  | VNull => false
  | VBool b => b
  | VNum n => negb (n =? 0)%Z
  | VStr s => negb (s =? "")
  | VArr _ _ => true
  | VObj _ _ => true
  | VDsInt _ => true
  end.

(** [a === b].  The objects the store client's [int] makes carry no
    identity here and count as distinct: the program compares kinds
    only, and no kind is such an object. *)
Definition strict_eq (a b : value) : bool :=
  match a, b with
  | VUndef, VUndef => true
  | VNull, VNull => true
  | VBool x, VBool y => Bool.eqb x y
  | VNum x, VNum y => (x =? y)%Z
  | VStr x, VStr y => (x =? y)
  | VArr l _, VArr l' _ => Nat.eqb l l'
  | VObj l _, VObj l' _ => Nat.eqb l l'
  | _, _ => false
  end.

(** [v == undefined]: true of [undefined] and [null] only. *)
Definition loose_eq_undefined (v : value) : bool :=
  match v with
  | VUndef => true
  | VNull => true
  | _ => false
  end.

(** [a && b] and [a || b] on operands without effects. *)
Definition js_and (a b : value) : value := if truthy a then b else a.
Definition js_or (a b : value) : value := if truthy a then a else b.

(** [Array.isArray(v)] *)
Definition isArray (v : value) : bool :=
  match v with
  | VArr _ _ => true
  | _ => false
  end.

(** [v.length] of an array [v]. *)
Definition arrayLength (v : value) : value :=
  match v with
  | VArr _ elems => VNum (Z.of_nat (length elems))
  | _ => VUndef
  end.

Fixpoint lookup (k : string) (o : obj) : option value :=
  match o with
  | [] => None
  | (k', v) :: o' => if k' =? k then Some v else lookup k o'
  end.

(** RequireObjectCoercible: a property can be read from every value but
    [undefined] and [null]. *)
Definition isObjectCoercible (v : value) : bool :=
  match v with
  | VUndef => false
  | VNull => false
  | _ => true
  end.

(** The value of [v.k] for the property names this program reads
    ([kind], [namespace], [query], [model], [projectId], ...): none of
    them is a property of an array, of a primitive's wrapper or of
    [Object.prototype], so only an object's own properties answer. *)
Definition propOf (v : value) (k : string) : value :=
  match v with
  | VObj _ props =>
      match lookup k props with
      | Some x => x
      | None => VUndef
      end
  | _ => VUndef
  end.

(** [v.k], which raises on [undefined] and [null]. *)
Definition getProp (v : value) (k : string) : result value :=
  if isObjectCoercible v then Ok (propOf v k) else Throw TypeError.

(** [q.hasOwnProperty()] : the method is looked up on [q], found on
    [Object.prototype] unless an own property of that name hides it (and
    an own property is data here, so that calling it raises); called
    without argument it tests the own property named ["undefined"].
    Arrays, strings, numbers and booleans own only indices and [length]. *)
Definition hasOwnProperty_noarg (q : value) : result bool :=
  match q with
  | VUndef => Throw TypeError
  | VNull => Throw TypeError
  | VObj _ props =>
      match lookup "hasOwnProperty" props with
      | Some _ => Throw TypeError
      | None =>
          match lookup "undefined" props with
          | Some _ => Ok true
          | None => Ok false
          end
      end
  | VDsInt _ => Ok false
  | _ => Ok false
  end.

(** The items [Array.prototype.concat] takes from one argument: the
    elements of an array, any other value as it is. *)
Definition concatItems (v : value) : list value :=
  match v with
  | VArr _ elems => elems
  | _ => [v]
  end.

(** [[].concat(a, b)]: the elements of the new array. *)
Definition concat2 (a b : value) : list value :=
  [] ++ concatItems a ++ concatItems b.

(** *** [isNaN] on strings: the StringNumericLiteral grammar *)

Definition isStrWhiteSpaceChar (c : ascii) : bool :=
  let n := nat_of_ascii c in
  (Nat.eqb n 9 || Nat.eqb n 10 || Nat.eqb n 11 || Nat.eqb n 12
   || Nat.eqb n 13 || Nat.eqb n 32 || Nat.eqb n 160)%bool.

Definition isDecimalDigit (c : ascii) : bool :=
  let n := nat_of_ascii c in (Nat.leb 48 n && Nat.leb n 57)%bool.

Definition isHexDigit (c : ascii) : bool :=
  let n := nat_of_ascii c in
  ((Nat.leb 48 n && Nat.leb n 57) || (Nat.leb 65 n && Nat.leb n 70)
   || (Nat.leb 97 n && Nat.leb n 102))%bool.

Definition isOctalDigit (c : ascii) : bool :=
  let n := nat_of_ascii c in (Nat.leb 48 n && Nat.leb n 55)%bool.

Definition isBinaryDigit (c : ascii) : bool :=
  let n := nat_of_ascii c in (Nat.leb 48 n && Nat.leb n 49)%bool.

Fixpoint trimStart (s : string) : string :=
  match s with
  | EmptyString => EmptyString
  | String c s' => if isStrWhiteSpaceChar c then trimStart s' else s
  end.

Fixpoint trimEnd (s : string) : string :=
  match s with
  | EmptyString => EmptyString
  | String c s' =>
      match trimEnd s' with
      | EmptyString => if isStrWhiteSpaceChar c then EmptyString else String c EmptyString
      | t => String c t
      end
  end.

Fixpoint allChars (p : ascii -> bool) (s : string) : bool :=
  match s with
  | EmptyString => true
  | String c s' => (p c && allChars p s')%bool
  end.

Definition nonEmpty (s : string) : bool :=
  match s with
  | EmptyString => false
  | String _ _ => true
  end.

(** DecimalDigits: one digit or more, and nothing else. *)
Definition isDecimalDigits (s : string) : bool :=
  (nonEmpty s && allChars isDecimalDigit s)%bool.

Definition startsWithDigit (s : string) : bool :=
  match s with
  | EmptyString => false
  | String c _ => isDecimalDigit c
  end.

Fixpoint skipDigits (s : string) : string :=
  match s with
  | EmptyString => EmptyString
  | String c s' => if isDecimalDigit c then skipDigits s' else s
  end.

(** What may follow the mantissa: nothing, or [e]/[E], an optional sign
    and DecimalDigits. *)
Definition isExponentPartOpt (s : string) : bool :=
  match s with
  | EmptyString => true
  | String c s' =>
      ((c =? "e") || (c =? "E"))%char
      && match s' with
         | String "+" r => isDecimalDigits r
         | String "-" r => isDecimalDigits r
         | _ => isDecimalDigits s'
         end
  end%bool.

Definition isStrUnsignedDecimalLiteral (s : string) : bool :=
  if s =? "Infinity" then true
  else if startsWithDigit s then
    match skipDigits s with
    | String "." r => isExponentPartOpt (skipDigits r)
    | r => isExponentPartOpt r
    end
  else
    match s with
    | String "." r => (startsWithDigit r && isExponentPartOpt (skipDigits r))%bool
    | _ => false
    end.

Definition isStrDecimalLiteral (s : string) : bool :=
  match s with
  | String "+" r => isStrUnsignedDecimalLiteral r
  | String "-" r => isStrUnsignedDecimalLiteral r
  | _ => isStrUnsignedDecimalLiteral s
  end.

Definition isNonDecimalIntegerLiteral (s : string) : bool :=
  match s with
  | String "0" (String x r) =>
      if ((x =? "x") || (x =? "X"))%char then (nonEmpty r && allChars isHexDigit r)%bool
      else if ((x =? "o") || (x =? "O"))%char then (nonEmpty r && allChars isOctalDigit r)%bool
      else if ((x =? "b") || (x =? "B"))%char then (nonEmpty r && allChars isBinaryDigit r)%bool
      else false
  | _ => false
  end.

(** [isNaN(s)] for a string [s]: ToNumber gives NaN exactly when [s],
    white space trimmed, is neither empty nor a StrNumericLiteral. *)
Definition isNaN (s : string) : bool :=
  let t := trimEnd (trimStart s) in
  match t with
  | EmptyString => false
  | _ => negb (isStrDecimalLiteral t || isNonDecimalIntegerLiteral t)
  end.

End Js.

Import Js.

(* ===================================================================== *)
(** ** The store client and the error constructors (collaborators) *)
(* ===================================================================== *)

(** What [resolvePreKey] returns: the bare path, or the path under a
    namespace.  Both are new on every call. *)
Inductive preKey : Type :=
| Path (path : list value)
| NamespacedPath (namespace : value) (path : list value).

(** [datastore.key(preKey)] *)
Inductive datastoreKey : Type :=
| Key (from : preKey).

(** How the promise of [datastore.get(key)] settles. *)
Inductive storeReply : Type :=
| Resolves (result : list value)
| Rejects (error : value).

(** The handle [Datastore(config)] or [Datastore()] returns; what the
    store answers is not this program's to decide. *)
Record datastoreHandle : Type := {
  ds_config : option obj;
  ds_get : datastoreKey -> storeReply
}.

Definition Datastore (backend : datastoreKey -> storeReply) (config : option obj)
  : datastoreHandle :=
  {| ds_config := config; ds_get := backend |}.

(** [datastore.int(id)] *)
Definition ds_int (ds : datastoreHandle) (id : string) : value := VDsInt id.

(** [datastore.key(preKey)] *)
Definition ds_key (ds : datastoreHandle) (k : preKey) : datastoreKey := Key k.

(** The constructors of [feathers-errors] this program uses. *)
Inductive errorClass : Type :=
| BadRequest
| NotFound
| GeneralError.

Record serviceError : Type := {
  err_class : errorClass;
  err_message : string;
  err_data : obj
}.

(** A promise is pending ([None]) or settled, once and for all. *)
Inductive rejection : Type :=
| Service (e : serviceError)
| Raised (e : exn).

Inductive settlement : Type :=
| Resolved (result : list value)
| Rejected (reason : rejection).

Definition promise := option settlement.

(** [resolve(v)] and [reject(e)]: a settled promise stays as it is. *)
Definition settle (p : promise) (s : settlement) : promise :=
  match p with
  | None => Some s
  | Some _ => p
  end.

(** [process.env]: a variable is a string or not set. *)
Record processEnv : Type := {
  GCLOUD_PROJECT : option string;
  GOOGLE_APPLICATION_CREDENTIALS : option string
}.

Definition envValue (v : option string) : value :=
  match v with
  | Some s => VStr s
  | None => VUndef
  end.

(** [o.k = v] *)
Fixpoint setProp (k : string) (v : value) (o : obj) : obj :=
  match o with
  | [] => [(k, v)]
  | (k', v') :: o' => if k' =? k then (k, v) :: o' else (k', v') :: setProp k v o'
  end.

Definition hasProp (k : string) (o : obj) : bool :=
  match lookup k o with
  | Some _ => true
  | None => false
  end.

(** What [resolveConfig] returns: [false], or the config object it built. *)
Inductive configResult : Type :=
| NoConfig
| Config (config : obj).

#[local] Instance Monad_result : Monad result := {
  ret := fun _ x => Ok x;
  bind := fun _ _ m f =>
    match m with
    | Ok x => f x
    | Throw e => Throw e
    end
}.

(* ===================================================================== *)
(** ** The adapter *)
(* ===================================================================== *)

Module Adapter.

(** The object [adapter] the functions close over, once the factory has
    filled it ([config] and [datastore] are [null] only before that). *)
Record adapter : Type := {
  config : configResult;
  datastore : datastoreHandle;
  defaultKind : value;
  allowKindOverwrite : bool;
  defaultNamespace : value;
  allowNamespaceOverwrite : bool;
  app : value;
  path : value
}.

(** A computation over the adapter: it may read and write it, and ends
    with a value or a raised exception.  The adapter survives a raise. *)
Definition M (A : Type) : Type := adapter -> result A * adapter.

#[local] Instance Monad_M : Monad M := {
  ret := fun _ x a => (Ok x, a);
  bind := fun _ _ m f a =>
    match m a with
    | (Ok x, a') => f x a'
    | (Throw e, a') => (Throw e, a')
    end
}.

#[local] Instance MonadState_M : MonadState adapter M := {
  get := fun a => (Ok a, a);
  put := fun a' _ => (Ok tt, a')
}.

#[local] Instance MonadExc_M : MonadExc exn M := {
  raise := fun _ e a => (Throw e, a);
  catch := fun _ m h a =>
    match m a with
    | (Ok x, a') => (Ok x, a')
    | (Throw e, a') => h e a'
    end
}.

(** A step that does not touch the adapter. *)
Definition liftR {A : Type} (r : result A) : M A := fun a => (r, a).

(** [isValidKind(kind)] (lines 304-306): a string, or an array and then
    its length. *)
Definition isValidKind (kind : value) : value :=
  js_or (VBool (typeof kind =? "string"))
        (js_and (VBool (isArray kind)) (arrayLength kind)).

(** [resolveConfig(options)] (lines 379-425). *)
Definition resolveConfig (env : processEnv) (options : value) : result configResult :=
  let config : obj := [] in
  projectId <- getProp options "projectId" ;;
  let step1 :=
    if (negb (typeof projectId =? "undefined") && truthy projectId)%bool then
      Some (setProp "projectId" projectId config)
    else if truthy (envValue (GCLOUD_PROJECT env)) then
      Some (setProp "projectId" (envValue (GCLOUD_PROJECT env)) config)
    else None in
  match step1 with
  | None => ret NoConfig
  | Some config =>
      keyFilename <- getProp options "keyFilename" ;;
      if (negb (typeof keyFilename =? "undefined") && truthy keyFilename)%bool then
        ret (Config (setProp "keyFilename" keyFilename config))
      else if truthy (envValue (GOOGLE_APPLICATION_CREDENTIALS env)) then
        ret (Config (setProp "keyFilename"
                             (envValue (GOOGLE_APPLICATION_CREDENTIALS env)) config))
      else
        credentials <- getProp options "credentials" ;;
        if negb (typeof credentials =? "undefined") then
          client_email <- getProp credentials "client_email" ;;
          if negb (typeof client_email =? "undefined") then
            private_key <- getProp credentials "private_key" ;;
            if negb (typeof private_key =? "undefined") then
              let config := setProp "credentials" credentials config in
              (* line 419: [return false] follows the assignment *)
              ret NoConfig
            else ret NoConfig
          else ret NoConfig
        else ret NoConfig
  end.

(** [resolveDatastoreConfig(options)] (lines 1108-1154), the same
    function under the name a later revision gives it. *)
Definition resolveDatastoreConfig (env : processEnv) (options : value)
  : result configResult :=
  let config : obj := [] in
  projectId <- getProp options "projectId" ;;
  let step1 :=
    if (negb (typeof projectId =? "undefined") && truthy projectId)%bool then
      Some (setProp "projectId" projectId config)
    else if truthy (envValue (GCLOUD_PROJECT env)) then
      Some (setProp "projectId" (envValue (GCLOUD_PROJECT env)) config)
    else None in
  match step1 with
  | None => ret NoConfig
  | Some config =>
      keyFilename <- getProp options "keyFilename" ;;
      if (negb (typeof keyFilename =? "undefined") && truthy keyFilename)%bool then
        ret (Config (setProp "keyFilename" keyFilename config))
      else if truthy (envValue (GOOGLE_APPLICATION_CREDENTIALS env)) then
        ret (Config (setProp "keyFilename"
                             (envValue (GOOGLE_APPLICATION_CREDENTIALS env)) config))
      else
        credentials <- getProp options "credentials" ;;
        if negb (typeof credentials =? "undefined") then
          client_email <- getProp credentials "client_email" ;;
          if negb (typeof client_email =? "undefined") then
            private_key <- getProp credentials "private_key" ;;
            if negb (typeof private_key =? "undefined") then
              let config := setProp "credentials" credentials config in
              (* line 1148: [return false] follows the assignment *)
              ret NoConfig
            else ret NoConfig
          else ret NoConfig
        else ret NoConfig
  end.

(** [resolveKind(params)] (lines 269-279).  The test
    [typeof params.kind != undefined] compares a string with [undefined]. *)
Definition resolveKind (params : value) : M value :=
  allow <- gets allowKindOverwrite ;;
  if allow then
    kind <- liftR (getProp params "kind") ;;
    if (negb (loose_eq_undefined (VStr (typeof kind)))
        && truthy (isValidKind kind))%bool
    then ret kind
    else gets defaultKind
  else gets defaultKind.

(** [resolveNamespace(params)] (lines 287-297). *)
Definition resolveNamespace (params : value) : M value :=
  allow <- gets allowNamespaceOverwrite ;;
  if allow then
    namespace <- liftR (getProp params "namespace") ;;
    if (negb (loose_eq_undefined (VStr (typeof namespace)))
        && (typeof namespace =? "string"))%bool
    then ret namespace
    else gets defaultNamespace
  else gets defaultNamespace.

(** [resolvePreKey(id, kind, params)] (lines 245-261). *)
Definition resolvePreKey (id kind params : value) : M preKey :=
  namespace <- resolveNamespace params ;;
  let path := concat2 kind id in
  if truthy namespace then ret (NamespacedPath namespace path)
  else ret (Path path).

(** [resolveErrorData(id, kind, params)] (lines 315-334). *)
Definition resolveErrorData (id kind params : value) : M obj :=
  let errorData : obj := [("id", id)] in
  dk <- gets defaultKind ;;
  let errorData :=
    if negb (strict_eq kind dk) then setProp "kind" kind errorData
    else errorData in
  queryGiven <-
    (if negb (typeof params =? "undefined") then
       query <- liftR (getProp params "query") ;;
       if negb (typeof query =? "undefined") then
         liftR (hasOwnProperty_noarg query)
       else ret false
     else ret false) ;;
  if (queryGiven : bool) then
    query <- liftR (getProp params "query") ;;
    ret (setProp "query" query errorData)
  else ret errorData.

Definition invalidIdMessage : string :=
  "Invalid id format, should be a number e.g. 5634472569470976, provided: ".

(** [resolveId(id)] (lines 341-352), for the string the id is. *)
Definition resolveId (id : string) : M value :=
  let validNumber := negb (isNaN id) in
  if validNumber then
    ds <- gets datastore ;;
    ret (ds_int ds id)
  else ret (VStr (invalidIdMessage ++ id)).

(** [setup(app, path)] (lines 224-227). *)
Definition setup (app' path' : value) : M unit :=
  a <- MonadState.get ;;
  put {| config := config a; datastore := datastore a;
         defaultKind := defaultKind a;
         allowKindOverwrite := allowKindOverwrite a;
         defaultNamespace := defaultNamespace a;
         allowNamespaceOverwrite := allowNamespaceOverwrite a;
         app := app'; path := path' |}.

(** The test of line 168 on what the store resolved with. *)
Definition anyResult (result : list value) : bool :=
  (Nat.ltb 1 (length result)
   || (Nat.eqb (length result) 1
       && negb (typeof (nth 0 result VUndef) =? "undefined")))%bool.

(** [get(id, params)] (lines 140-192): the state the returned promise
    ends in, once the store's promise has settled and the callbacks have
    run.  What the executor raises rejects the promise if it is still
    pending; what the [then] callback raises goes to the [catch]
    callback; what that one raises reaches nobody. *)
Definition get (id : string) (params : value) : M promise :=
  let deferred : promise := None in
  (* the executor, up to the request *)
  started <-
    catch
      (processedId <- resolveId id ;;
       deferred <-
         (if typeof processedId =? "string" then
            kind0 <- resolveKind params ;;
            data <- resolveErrorData (VStr id) kind0 params ;;
            let serviceError :=
              {| err_class := BadRequest;
                 err_message := match processedId with VStr m => m | _ => "" end;
                 err_data := data |} in
            ret (settle deferred (Rejected (Service serviceError)))
          else ret deferred) ;;
       catch
         (kind <- resolveKind params ;;
          prekey <- resolvePreKey processedId kind params ;;
          ds <- gets datastore ;;
          let key := ds_key ds prekey in
          ret (deferred, Some (kind, ds_get ds key)))
         (fun e => ret (settle deferred (Rejected (Raised e)), None)))
      (fun e => ret (settle deferred (Rejected (Raised e)), None)) ;;
  (* the callbacks *)
  match started with
  | (deferred, None) => ret deferred
  | (deferred, Some (kind, reply)) =>
      let onRejected : M promise :=
        data <- resolveErrorData (VStr id) kind params ;;
        let serviceError :=
          {| err_class := GeneralError;
             err_message := "Datastore returned error while requesting entity.";
             err_data := data |} in
        ret (settle deferred (Rejected (Service serviceError))) in
      let onFulfilled (result : list value) : M promise :=
        if anyResult result then ret (settle deferred (Resolved result))
        else
          data <- resolveErrorData (VStr id) kind params ;;
          let serviceError :=
            {| err_class := NotFound;
               err_message := "Requested entity does not exist.";
               err_data := data |} in
          ret (settle deferred (Rejected (Service serviceError))) in
      match reply with
      | Resolves result =>
          catch (onFulfilled result)
                (fun _ => catch onRejected (fun _ => ret deferred))
      | Rejects _ => catch onRejected (fun _ => ret deferred)
      end
  end.

(** The factory [datastoreAdapter(options)] (lines 34-121): the adapter
    its service functions close over.  [backend] stands for the store
    behind the client handle. *)
Definition datastoreAdapter (env : processEnv)
  (backend : datastoreKey -> storeReply) (options : value) : result adapter :=
  let given := negb (typeof options =? "undefined") in
  config <-
    (if given then
       model <- getProp options "model" ;;
       if negb (typeof model =? "undefined") then resolveConfig env model
       else ret NoConfig
     else ret NoConfig) ;;
  let datastore :=
    match config with
    | Config c => Datastore backend (Some c)
    | NoConfig => Datastore backend None
    end in
  defaultKind <-
    (if given then
       k <- getProp options "defaultKind" ;;
       if truthy (isValidKind k) then ret k else ret (VBool false)
     else ret (VBool false)) ;;
  allowKindOverwrite <-
    (if given then
       f <- getProp options "allowKindOverwrite" ;;
       ret (negb (typeof f =? "undefined") && truthy f)%bool
     else ret false) ;;
  defaultNamespace <-
    (if given then
       n <- getProp options "defaultNamespace" ;;
       if typeof n =? "string" then ret n else ret (VBool false)
     else ret (VBool false)) ;;
  allowNamespaceOverwrite <-
    (if given then
       f <- getProp options "allowNamespaceOverwrite" ;;
       ret (negb (typeof f =? "undefined") && truthy f)%bool
     else ret false) ;;
  ret {| config := config; datastore := datastore;
         defaultKind := defaultKind;
         allowKindOverwrite := allowKindOverwrite;
         defaultNamespace := defaultNamespace;
         allowNamespaceOverwrite := allowNamespaceOverwrite;
         app := VNull; path := VStr "" |}.

(** [find], [create], [update], [patch] and [remove] (lines 195-217):
    bodies without a statement, which return [undefined]. *)
Definition find (params : value) : M value := ret VUndef.
Definition create (data params : value) : M value := ret VUndef.
Definition update (id data params : value) : M value := ret VUndef.
Definition patch (id data params : value) : M value := ret VUndef.
Definition remove (id params : value) : M value := ret VUndef.

End Adapter.

(* ===================================================================== *)
(** ** The adapter of the later revision (lines 613-1155) *)
(* ===================================================================== *)

Module Rev3.

(** [adapter.config]: the adapter's own configuration. *)
Record accessConfig : Type := {
  defaultKind : value;
  allowKindOverwrite : bool;
  defaultNamespace : value;
  allowNamespaceOverwrite : bool
}.

(** The object [adapter]; [datastoreConfig] and [datastore] are [null]
    ([None]) until [setupDatastore] has run. *)
Record adapter : Type := {
  datastoreConfig : option configResult;
  datastore : option datastoreHandle;
  config : accessConfig;
  app : value;
  path : value
}.

(** The object literal of lines 615-654. *)
Definition newAdapter : adapter :=
  {| datastoreConfig := None;
     datastore := None;
     config := {| defaultKind := VBool false;
                  allowKindOverwrite := false;
                  defaultNamespace := VBool false;
                  allowNamespaceOverwrite := false |};
     app := VNull;
     path := VStr "" |}.

Definition M (A : Type) : Type := adapter -> result A * adapter.

#[local] Instance Monad_M : Monad M := {
  ret := fun _ x a => (Ok x, a);
  bind := fun _ _ m f a =>
    match m a with
    | (Ok x, a') => f x a'
    | (Throw e, a') => (Throw e, a')
    end
}.

#[local] Instance MonadState_M : MonadState adapter M := {
  get := fun a => (Ok a, a);
  put := fun a' _ => (Ok tt, a')
}.

#[local] Instance MonadExc_M : MonadExc exn M := {
  raise := fun _ e a => (Throw e, a);
  catch := fun _ m h a =>
    match m a with
    | (Ok x, a') => (Ok x, a')
    | (Throw e, a') => h e a'
    end
}.

Definition liftR {A : Type} (r : result A) : M A := fun a => (r, a).

(** Assignments to one property of [adapter] or of [adapter.config]. *)
Definition setDatastoreConfig (c : configResult) : M unit :=
  a <- MonadState.get ;;
  put {| datastoreConfig := Some c; datastore := datastore a;
         config := config a; app := app a; path := path a |}.

Definition setDatastore (ds : datastoreHandle) : M unit :=
  a <- MonadState.get ;;
  put {| datastoreConfig := datastoreConfig a; datastore := Some ds;
         config := config a; app := app a; path := path a |}.

Definition setAccessConfig (c : accessConfig) : M unit :=
  a <- MonadState.get ;;
  put {| datastoreConfig := datastoreConfig a; datastore := datastore a;
         config := c; app := app a; path := path a |}.

Definition setDefaultKind (k : value) : M unit :=
  c <- gets config ;;
  setAccessConfig
    {| defaultKind := k;
       allowKindOverwrite := allowKindOverwrite c;
       defaultNamespace := defaultNamespace c;
       allowNamespaceOverwrite := allowNamespaceOverwrite c |}.

Definition setAllowKindOverwrite (b : bool) : M unit :=
  c <- gets config ;;
  setAccessConfig
    {| defaultKind := defaultKind c;
       allowKindOverwrite := b;
       defaultNamespace := defaultNamespace c;
       allowNamespaceOverwrite := allowNamespaceOverwrite c |}.

Definition setDefaultNamespace (n : value) : M unit :=
  c <- gets config ;;
  setAccessConfig
    {| defaultKind := defaultKind c;
       allowKindOverwrite := allowKindOverwrite c;
       defaultNamespace := n;
       allowNamespaceOverwrite := allowNamespaceOverwrite c |}.

Definition setAllowNamespaceOverwrite (b : bool) : M unit :=
  c <- gets config ;;
  setAccessConfig
    {| defaultKind := defaultKind c;
       allowKindOverwrite := allowKindOverwrite c;
       defaultNamespace := defaultNamespace c;
       allowNamespaceOverwrite := b |}.

(** [isValidKind(kind)] (lines 1033-1035). *)
Definition isValidKind (kind : value) : value :=
  js_or (VBool (typeof kind =? "string"))
        (js_and (VBool (isArray kind)) (arrayLength kind)).

(** [setupDatastore(options)] (lines 895-914). *)
Definition setupDatastore (env : processEnv)
  (backend : datastoreKey -> storeReply) (options : value) : M unit :=
  (if negb (typeof options =? "undefined") then
     model <- liftR (getProp options "model") ;;
     if negb (typeof model =? "undefined") then
       c <- liftR (Adapter.resolveDatastoreConfig env model) ;;
       setDatastoreConfig c
     else setDatastoreConfig NoConfig
   else setDatastoreConfig NoConfig) ;;
  dc <- gets datastoreConfig ;;
  match dc with
  | Some (Config c) => setDatastore (Datastore backend (Some c))
  | _ => setDatastore (Datastore backend None)
  end.

(** [resolveConfig(options)] (lines 920-956). *)
Definition resolveConfig (options : value) : M unit :=
  let given := negb (typeof options =? "undefined") in
  (if given then
     k <- liftR (getProp options "defaultKind") ;;
     if truthy (isValidKind k) then setDefaultKind k else ret tt
   else ret tt) ;;
  (if given then
     f <- liftR (getProp options "allowKindOverwrite") ;;
     if (negb (typeof f =? "undefined") && truthy f)%bool
     then setAllowKindOverwrite true else ret tt
   else ret tt) ;;
  (if given then
     n <- liftR (getProp options "defaultNamespace") ;;
     if typeof n =? "string" then setDefaultNamespace n else ret tt
   else ret tt) ;;
  (if given then
     f <- liftR (getProp options "allowNamespaceOverwrite") ;;
     if (negb (typeof f =? "undefined") && truthy f)%bool
     then setAllowNamespaceOverwrite true else ret tt
   else ret tt).

(** The factory (lines 613-671): the adapter after [setupDatastore] and
    [resolveConfig]. *)
Definition datastoreAdapter (env : processEnv)
  (backend : datastoreKey -> storeReply) (options : value) : result adapter * adapter :=
  (setupDatastore env backend options ;;
   resolveConfig options ;;
   MonadState.get) newAdapter.

(** [resolveKind(params)] (lines 998-1008). *)
Definition resolveKind (params : value) : M value :=
  c <- gets config ;;
  if allowKindOverwrite c then
    kind <- liftR (getProp params "kind") ;;
    if (negb (loose_eq_undefined (VStr (typeof kind)))
        && truthy (isValidKind kind))%bool
    then ret kind
    else ret (defaultKind c)
  else ret (defaultKind c).

(** [resolveNamespace(params)] (lines 1016-1026). *)
Definition resolveNamespace (params : value) : M value :=
  c <- gets config ;;
  if allowNamespaceOverwrite c then
    namespace <- liftR (getProp params "namespace") ;;
    if (negb (loose_eq_undefined (VStr (typeof namespace)))
        && (typeof namespace =? "string"))%bool
    then ret namespace
    else ret (defaultNamespace c)
  else ret (defaultNamespace c).

(** [resolvePreKey(id, kind, params)] (lines 974-990). *)
Definition resolvePreKey (id kind params : value) : M preKey :=
  namespace <- resolveNamespace params ;;
  let path := concat2 kind id in
  if truthy namespace then ret (NamespacedPath namespace path)
  else ret (Path path).

(** [resolveErrorData(id, kind, params)] (lines 1044-1063). *)
Definition resolveErrorData (id kind params : value) : M obj :=
  let errorData : obj := [("id", id)] in
  c <- gets config ;;
  let errorData :=
    if negb (strict_eq kind (defaultKind c)) then setProp "kind" kind errorData
    else errorData in
  queryGiven <-
    (if negb (typeof params =? "undefined") then
       query <- liftR (getProp params "query") ;;
       if negb (typeof query =? "undefined") then
         liftR (hasOwnProperty_noarg query)
       else ret false
     else ret false) ;;
  if (queryGiven : bool) then
    query <- liftR (getProp params "query") ;;
    ret (setProp "query" query errorData)
  else ret errorData.

(** The client handle, when there is one. *)
Definition theDatastore : M datastoreHandle :=
  ds <- gets datastore ;;
  match ds with
  | Some h => ret h
  | None => raise TypeError
  end.

(** [resolveId(id)] (lines 1070-1081). *)
Definition resolveId (id : string) : M value :=
  let validNumber := negb (isNaN id) in
  if validNumber then
    ds <- theDatastore ;;
    ret (ds_int ds id)
  else ret (VStr (Adapter.invalidIdMessage ++ id)).

(** [setup(app, path)] (lines 886-889). *)
Definition setup (app' path' : value) : M unit :=
  a <- MonadState.get ;;
  put {| datastoreConfig := datastoreConfig a; datastore := datastore a;
         config := config a; app := app'; path := path' |}.

(** [get(id, params)] (lines 679-730), as the first revision has it;
    [adapter.datastore.key] is read before its argument is computed. *)
Definition get (id : string) (params : value) : M promise :=
  let deferred : promise := None in
  started <-
    catch
      (processedId <- resolveId id ;;
       deferred <-
         (if typeof processedId =? "string" then
            kind0 <- resolveKind params ;;
            data <- resolveErrorData (VStr id) kind0 params ;;
            let serviceError :=
              {| err_class := BadRequest;
                 err_message := match processedId with VStr m => m | _ => "" end;
                 err_data := data |} in
            ret (settle deferred (Rejected (Service serviceError)))
          else ret deferred) ;;
       catch
         (kind <- resolveKind params ;;
          ds <- theDatastore ;;
          prekey <- resolvePreKey processedId kind params ;;
          let key := ds_key ds prekey in
          ret (deferred, Some (kind, ds_get ds key)))
         (fun e => ret (settle deferred (Rejected (Raised e)), None)))
      (fun e => ret (settle deferred (Rejected (Raised e)), None)) ;;
  match started with
  | (deferred, None) => ret deferred
  | (deferred, Some (kind, reply)) =>
      let onRejected : M promise :=
        data <- resolveErrorData (VStr id) kind params ;;
        let serviceError :=
          {| err_class := GeneralError;
             err_message := "Datastore returned error while requesting entity.";
             err_data := data |} in
        ret (settle deferred (Rejected (Service serviceError))) in
      let onFulfilled (result : list value) : M promise :=
        if Adapter.anyResult result then ret (settle deferred (Resolved result))
        else
          data <- resolveErrorData (VStr id) kind params ;;
          let serviceError :=
            {| err_class := NotFound;
               err_message := "Requested entity does not exist.";
               err_data := data |} in
          ret (settle deferred (Rejected (Service serviceError))) in
      match reply with
      | Resolves result =>
          catch (onFulfilled result)
                (fun _ => catch onRejected (fun _ => ret deferred))
      | Rejects _ => catch onRejected (fun _ => ret deferred)
      end
  end.

End Rev3.

Import Adapter.

(* ===================================================================== *)
(** ** Vocabulary of the specification, and sample inputs *)
(* ===================================================================== *)

Definition isNonEmptyString (v : value) : bool :=
  match v with
  | VStr s => negb (s =? "")
  | _ => false
  end.

(** A configuration is fully populated when it holds [projectId] and
    exactly one of [keyFilename] and [credentials]. *)
Definition fullyPopulated (c : obj) : bool :=
  (hasProp "projectId" c
   && xorb (hasProp "keyFilename" c) (hasProp "credentials" c))%bool.

(** The default namespace of an adapter is a string, or absent ([false]). *)
Definition namespaceStringOrAbsent (a : adapter) : bool :=
  match defaultNamespace a with
  | VBool false => true
  | VStr _ => true
  | _ => false
  end.

(** The default kind of an adapter is a valid kind, or absent ([false]). *)
Definition kindValidOrAbsent (a : adapter) : bool :=
  match defaultKind a with
  | VBool false => true
  | k => truthy (isValidKind k)
  end.

(** Request parameters as the service receives them: an object whose
    [query], when there is one, is an object that does not redefine
    [hasOwnProperty]. *)
Definition plainParams (params : value) : bool :=
  match params with
  | VObj _ _ =>
      match propOf params "query" with
      | VUndef => true
      | VObj _ q => negb (hasProp "hasOwnProperty" q)
      | _ => false
      end
  | _ => false
  end.

(** The path the specification asks of [resolvePreKey]: the segments of
    the kind, a sequence spliced, then those of the id. *)
Definition flattened (kind id : value) : list value :=
  match kind with
  | VArr _ names => names
  | _ => [kind]
  end ++
  match id with
  | VArr _ parts => parts
  | _ => [id]
  end.

(** Two calls in a row: both outcomes, and the adapter left behind. *)
Definition callTwice {A : Type} (m : M A) (a : adapter)
  : result A * result A * adapter :=
  let (r1, a1) := m a in
  let (r2, a2) := m a1 in
  (r1, r2, a2).

Definition noEnv : processEnv :=
  {| GCLOUD_PROJECT := None; GOOGLE_APPLICATION_CREDENTIALS := None |}.

(** A store that holds nothing. *)
Definition emptyStore : datastoreKey -> storeReply := fun _ => Resolves [].

(** [{projectId: "my-project",
      credentials: {client_email: "a@b.c", private_key: "k"}}] *)
Definition credentialOptions : value :=
  VObj 1 [("projectId", VStr "my-project");
          ("credentials",
           VObj 2 [("client_email", VStr "a@b.c"); ("private_key", VStr "k")])].

(** The adapter of [datastoreAdapter({defaultKind: "Tag"})]. *)
Definition tagAdapter : adapter :=
  {| config := NoConfig; datastore := Datastore emptyStore None;
     defaultKind := VStr "Tag"; allowKindOverwrite := false;
     defaultNamespace := VBool false; allowNamespaceOverwrite := false;
     app := VNull; path := VStr "" |}.

(** The adapter of
    [datastoreAdapter({defaultKind: "Tag", allowKindOverwrite: true})]. *)
Definition openKindAdapter : adapter :=
  {| config := NoConfig; datastore := Datastore emptyStore None;
     defaultKind := VStr "Tag"; allowKindOverwrite := true;
     defaultNamespace := VBool false; allowNamespaceOverwrite := false;
     app := VNull; path := VStr "" |}.

(** [{}], [{kind: "Other"}] and [{query: {name: "x"}}] *)
Definition noParams : value := VObj 10 [].
Definition otherKindParams : value := VObj 11 [("kind", VStr "Other")].
Definition queryParams : value :=
  VObj 12 [("query", VObj 13 [("name", VStr "x")])].

(** The promise [get] leaves, read off the outcomes of the resolvers. *)
Definition getOutcome (id : string) (params : value) (a : adapter) : promise :=
  match fst (resolveKind params a) with
  | Throw e => Some (Rejected (Raised e))
  | Ok kind =>
      if isNaN id then
        match fst (resolveErrorData (VStr id) kind params a) with
        | Throw e => Some (Rejected (Raised e))
        | Ok data =>
            Some (Rejected (Service
              {| err_class := BadRequest;
                 err_message := invalidIdMessage ++ id;
                 err_data := data |}))
        end
      else
        match fst (resolvePreKey (VDsInt id) kind params a) with
        | Throw e => Some (Rejected (Raised e))
        | Ok prekey =>
            match ds_get (datastore a) (Key prekey),
                  fst (resolveErrorData (VStr id) kind params a) with
            | Resolves result, data =>
                if anyResult result then Some (Resolved result)
                else match data with
                     | Ok d => Some (Rejected (Service
                         {| err_class := NotFound;
                            err_message := "Requested entity does not exist.";
                            err_data := d |}))
                     | Throw _ => None
                     end
            | Rejects _, Ok d =>
                Some (Rejected (Service
                  {| err_class := GeneralError;
                     err_message :=
                       "Datastore returned error while requesting entity.";
                     err_data := d |}))
            | Rejects _, Throw _ => None
            end
        end
  end.

(** [{projectId: "my-project", keyFilename: "key.json"}] *)
Definition keyFileOptions : value :=
  VObj 3 [("projectId", VStr "my-project"); ("keyFilename", VStr "key.json")].

Definition fullEnv : processEnv :=
  {| GCLOUD_PROJECT := Some "env-project";
     GOOGLE_APPLICATION_CREDENTIALS := Some "env-key.json" |}.

(** [{model: {projectId: "my-project", keyFilename: "key.json"},
      defaultKind: "Tag", defaultNamespace: "NS1",
      allowNamespaceOverwrite: 1}] *)
Definition fullOptions : value :=
  VObj 4 [("model", keyFileOptions); ("defaultKind", VStr "Tag");
          ("defaultNamespace", VStr "NS1");
          ("allowNamespaceOverwrite", VNum 1)].

(** The adapter [setup(app', path')] leaves. *)
Definition afterSetup (app' path' : value) (a : adapter) : adapter :=
  snd (setup app' path' a).

(** The adapter of the first revision an adapter of the later one
    stands for, once its store client is set up. *)
Definition toRev1 (a3 : Rev3.adapter) : option adapter :=
  match Rev3.datastoreConfig a3, Rev3.datastore a3 with
  | Some dc, Some ds =>
      Some {| config := dc; datastore := ds;
              defaultKind := Rev3.defaultKind (Rev3.config a3);
              allowKindOverwrite := Rev3.allowKindOverwrite (Rev3.config a3);
              defaultNamespace := Rev3.defaultNamespace (Rev3.config a3);
              allowNamespaceOverwrite :=
                Rev3.allowNamespaceOverwrite (Rev3.config a3);
              app := Rev3.app a3; path := Rev3.path a3 |}
  | _, _ => None
  end.


(** The adapter of the later revision that stands for [tagAdapter]. *)
Definition tagAdapter3 : Rev3.adapter :=
  {| Rev3.datastoreConfig := Some NoConfig;
     Rev3.datastore := Some (Datastore emptyStore None);
     Rev3.config := {| Rev3.defaultKind := VStr "Tag";
                       Rev3.allowKindOverwrite := false;
                       Rev3.defaultNamespace := VBool false;
                       Rev3.allowNamespaceOverwrite := false |};
     Rev3.app := VNull; Rev3.path := VStr "" |}.

(** The adapter of [datastoreAdapter({defaultNamespace: "NS1",
    allowNamespaceOverwrite: true, defaultKind: "Tag"})]. *)
Definition openNamespaceAdapter : adapter :=
  {| config := NoConfig; datastore := Datastore emptyStore None;
     defaultKind := VStr "Tag"; allowKindOverwrite := false;
     defaultNamespace := VStr "NS1"; allowNamespaceOverwrite := true;
     app := VNull; path := VStr "" |}.

(* ===================================================================== *)
(** ** Running the resolvers *)
(* ===================================================================== *)

Ltac run_m :=
  cbv [bind ret gets MonadState.get put raise catch liftR
       Monad_M MonadState_M MonadExc_M Monad_result].

Ltac run_m3 :=
  cbv [bind ret gets MonadState.get put raise catch Rev3.liftR
       Rev3.Monad_M Rev3.MonadState_M Rev3.MonadExc_M Monad_result
       Rev3.setDatastoreConfig Rev3.setDatastore Rev3.setAccessConfig
       Rev3.setDefaultKind Rev3.setAllowKindOverwrite
       Rev3.setDefaultNamespace Rev3.setAllowNamespaceOverwrite
       Rev3.theDatastore].

Ltac split_ifs :=
  repeat match goal with
         | |- context [if ?b then _ else _] => destruct b eqn:?
         end.

Lemma tagAdapter_made :
  datastoreAdapter noEnv emptyStore (VObj 0 [("defaultKind", VStr "Tag")])
  = Ok tagAdapter.
Proof. reflexivity. Qed.

Lemma openKindAdapter_made :
  datastoreAdapter noEnv emptyStore
    (VObj 0 [("defaultKind", VStr "Tag"); ("allowKindOverwrite", VBool true)])
  = Ok openKindAdapter.
Proof. reflexivity. Qed.

(** [isValidKind] is truthy on strings and on arrays that are not empty. *)
Lemma isValidKind_truthy kind :
  truthy (isValidKind kind) =
  match kind with
  | VStr _ => true
  | VArr _ elems => negb (Nat.eqb (length elems) 0)
  | _ => false
  end.
Proof.
  destruct kind; try reflexivity.
  unfold isValidKind, js_or, js_and; cbn.
  destruct elems; reflexivity.
Qed.

Lemma resolveKind_run params a :
  isObjectCoercible params = true ->
  resolveKind params a =
    (Ok (if (allowKindOverwrite a && truthy (isValidKind (propOf params "kind")))%bool
         then propOf params "kind" else defaultKind a), a).
Proof.
  intros Hp. unfold resolveKind, getProp. run_m. rewrite Hp.
  destruct (allowKindOverwrite a); cbn [andb negb loose_eq_undefined]; [| reflexivity].
  destruct (truthy _); reflexivity.
Qed.

Lemma resolveKind_closed params a :
  allowKindOverwrite a = false -> resolveKind params a = (Ok (defaultKind a), a).
Proof. intros H. unfold resolveKind. run_m. rewrite H. reflexivity. Qed.

Lemma resolveKind_state params a : snd (resolveKind params a) = a.
Proof.
  unfold resolveKind. run_m.
  destruct (allowKindOverwrite a); [| reflexivity].
  destruct (getProp params "kind") as [k | e]; [| reflexivity].
  destruct (_ && _)%bool; reflexivity.
Qed.

Lemma resolveNamespace_run params a :
  isObjectCoercible params = true ->
  resolveNamespace params a =
    (Ok (if (allowNamespaceOverwrite a
             && (typeof (propOf params "namespace") =? "string"))%bool
         then propOf params "namespace" else defaultNamespace a), a).
Proof.
  intros Hp. unfold resolveNamespace, getProp. run_m. rewrite Hp.
  destruct (allowNamespaceOverwrite a); cbn [andb negb loose_eq_undefined]; [| reflexivity].
  destruct (_ =? _); reflexivity.
Qed.

Lemma resolveNamespace_closed params a :
  allowNamespaceOverwrite a = false ->
  resolveNamespace params a = (Ok (defaultNamespace a), a).
Proof. intros H. unfold resolveNamespace. run_m. rewrite H. reflexivity. Qed.

Lemma resolveNamespace_state params a : snd (resolveNamespace params a) = a.
Proof.
  unfold resolveNamespace. run_m.
  destruct (allowNamespaceOverwrite a); [| reflexivity].
  destruct (getProp params "namespace") as [k | e]; [| reflexivity].
  destruct (_ && _)%bool; reflexivity.
Qed.

Lemma resolvePreKey_bind id kind params a :
  resolvePreKey id kind params a =
  match resolveNamespace params a with
  | (Ok namespace, a') =>
      (Ok (if truthy namespace then NamespacedPath namespace (concat2 kind id)
           else Path (concat2 kind id)), a')
  | (Throw e, a') => (Throw e, a')
  end.
Proof.
  unfold resolvePreKey. run_m.
  destruct (resolveNamespace params a) as [[ns | e] a']; [| reflexivity].
  destruct (truthy ns); reflexivity.
Qed.

Lemma resolvePreKey_state id kind params a :
  snd (resolvePreKey id kind params a) = a.
Proof.
  rewrite resolvePreKey_bind.
  pose proof (resolveNamespace_state params a) as H.
  destruct (resolveNamespace params a) as [[ns | e] a']; exact H.
Qed.

Lemma concat2_flattened kind id : concat2 kind id = flattened kind id.
Proof. destruct kind, id; reflexivity. Qed.

(** A string is truthy exactly when it is not empty; [false] is not. *)
Lemma truthy_namespace a params ns :
  namespaceStringOrAbsent a = true ->
  fst (resolveNamespace params a) = Ok ns ->
  truthy ns = isNonEmptyString ns.
Proof.
  unfold namespaceStringOrAbsent, resolveNamespace, getProp. run_m.
  intros Ha.
  assert (Hd : truthy (defaultNamespace a) = isNonEmptyString (defaultNamespace a)).
  { destruct (defaultNamespace a) as [| | [|] | | | | |]; try discriminate; reflexivity. }
  destruct (allowNamespaceOverwrite a); cbn [fst].
  - destruct (isObjectCoercible params); cbn [fst]; [| discriminate].
    cbn [negb loose_eq_undefined andb].
    destruct (propOf params "namespace"); cbn [typeof String.eqb fst];
      try (intros [= <-]; exact Hd).
    cbn. intros [= <-]. reflexivity.
  - intros [= <-]; exact Hd.
Qed.

Lemma factory_namespace env backend options a :
  datastoreAdapter env backend options = Ok a ->
  namespaceStringOrAbsent a = true.
Proof.
  unfold datastoreAdapter, getProp. run_m.
  destruct (negb (typeof options =? "undefined")).
  - destruct (isObjectCoercible options); [| discriminate].
    destruct (if negb _ then _ else _) as [cfg | e]; [| discriminate].
    destruct (truthy (isValidKind _));
      destruct (propOf options "defaultNamespace"); cbn;
      intros [= <-]; reflexivity.
  - intros [= <-]. reflexivity.
Qed.

(** Without options the adapter has no default kind, no default
    namespace, and allows no overwriting. *)
Lemma factory_defaults env backend :
  datastoreAdapter env backend VUndef =
    Ok {| config := NoConfig; datastore := Datastore backend None;
          defaultKind := VBool false; allowKindOverwrite := false;
          defaultNamespace := VBool false; allowNamespaceOverwrite := false;
          app := VNull; path := VStr "" |}.
Proof. reflexivity. Qed.

Lemma factory_kind env backend options a :
  datastoreAdapter env backend options = Ok a ->
  kindValidOrAbsent a = true.
Proof.
  unfold datastoreAdapter, getProp. run_m.
  destruct (negb (typeof options =? "undefined")).
  - destruct (isObjectCoercible options); [| discriminate].
    destruct (if negb _ then _ else _) as [cfg | e]; [| discriminate].
    destruct (truthy (isValidKind _)) eqn:Hk;
      destruct (typeof (propOf options "defaultNamespace") =? "string");
      intros [= <-]; unfold kindValidOrAbsent; cbn [defaultKind];
      try reflexivity;
      destruct (propOf options "defaultKind") as [| | [|] | | | | |];
      (reflexivity || exact Hk).
  - intros [= <-]. reflexivity.
Qed.

(** On a valid kind, and on [false], [===] holds of a value and itself. *)
Lemma strict_eq_defaultKind a :
  kindValidOrAbsent a = true -> strict_eq (defaultKind a) (defaultKind a) = true.
Proof.
  unfold kindValidOrAbsent. rewrite isValidKind_truthy.
  destruct (defaultKind a) as [| | [|] | | s | l es | |]; try discriminate;
    intros _; cbn.
  - reflexivity.
  - apply String.eqb_refl.
  - apply Nat.eqb_refl.
Qed.

Lemma setup_namespace app' path' a :
  namespaceStringOrAbsent a = true ->
  namespaceStringOrAbsent (snd (setup app' path' a)) = true.
Proof. intros H. exact H. Qed.

(* ===================================================================== *)
(** ** Kind, namespace and key resolution *)
(* ===================================================================== *)

(** C4, as the code has it.  On every params value a property can be
    read from (every value but [undefined] and [null]), and for every
    adapter configuration, [resolveKind] returns [params.kind] when
    [allowKindOverwrite] is set and [isValidKind(params.kind)] holds, and
    the configured [defaultKind] in every other case; the adapter is left
    as it was.  In particular, with [allowKindOverwrite] false and
    [params.kind] being ["Other"], the result is [defaultKind].  On
    [undefined] and [null] params the result is [defaultKind] when
    [allowKindOverwrite] is false, and the call raises a TypeError when
    it is set. *)
Theorem resolveKind_overwrite_or_default :
  forall (a : adapter) (params : value),
    isObjectCoercible params = true ->
    resolveKind params a =
      (Ok (if (allowKindOverwrite a
               && truthy (isValidKind (propOf params "kind")))%bool
           then propOf params "kind"
           else defaultKind a), a)
    /\ (allowKindOverwrite a = false ->
        resolveKind otherKindParams a = (Ok (defaultKind a), a))
    /\ (forall absent,
          isObjectCoercible absent = false ->
          resolveKind absent a =
            (if allowKindOverwrite a then Throw TypeError
             else Ok (defaultKind a), a)).
Proof.
  intros a params Hp. split; [| split].
  - apply resolveKind_run, Hp.
  - apply resolveKind_closed.
  - intros absent Habsent. unfold resolveKind, getProp. run_m.
    rewrite Habsent. destruct (allowKindOverwrite a); reflexivity.
Qed.

Lemma resolveKind_overwrite_or_default_witness :
  isObjectCoercible otherKindParams = true
  /\ resolveKind otherKindParams openKindAdapter
     = (Ok (VStr "Other"), openKindAdapter)
  /\ resolveKind otherKindParams tagAdapter = (Ok (VStr "Tag"), tagAdapter).
Proof.
  split; [reflexivity |]. split.
  - exact (proj1 (resolveKind_overwrite_or_default openKindAdapter otherKindParams
                    eq_refl)).
  - exact (proj1 (proj2 (resolveKind_overwrite_or_default tagAdapter
                           otherKindParams eq_refl)) eq_refl).
Defined.

(** C4, as stated, fails on params no property can be read from: when
    the adapter allows kind overwriting, [resolveKind(undefined)] and
    [resolveKind(null)] raise a TypeError where the claim has them return
    the default kind. *)
Lemma resolveKind_raises_without_params :
  allowKindOverwrite openKindAdapter = true
  /\ resolveKind VUndef openKindAdapter = (Throw TypeError, openKindAdapter)
  /\ resolveKind VNull openKindAdapter = (Throw TypeError, openKindAdapter)
  /\ resolveKind VUndef openKindAdapter
     <> (Ok (defaultKind openKindAdapter), openKindAdapter).
Proof. repeat split. discriminate. Qed.

(** C6, as the code has it.  For an adapter whose default namespace is
    a string or absent (as the factory makes it), every id and kind, and
    every params value a property can be read from (every value but
    [undefined] and [null]), [resolvePreKey] builds the path of the
    kind's segments, a sequence-valued kind spliced in order, followed by
    the id; it returns [{namespace, path}] exactly when the resolved
    namespace is a non-empty string and the bare path otherwise.  With no
    configured namespace, [resolvePreKey("5634472569470976", "Tag", {})]
    is [["Tag", "5634472569470976"]].  On [undefined] and [null] params
    the key is built with the default namespace when
    [allowNamespaceOverwrite] is false, and the call raises a TypeError
    when it is set. *)
Theorem resolvePreKey_flat_path :
  forall (a : adapter) (id kind params : value),
    namespaceStringOrAbsent a = true ->
    isObjectCoercible params = true ->
    (exists namespace,
        resolveNamespace params a = (Ok namespace, a)
        /\ resolvePreKey id kind params a =
             (Ok (if isNonEmptyString namespace
                  then NamespacedPath namespace (flattened kind id)
                  else Path (flattened kind id)), a))
    /\ (forall names, flattened (VStr names) (VStr "5634472569470976")
                      = [VStr names; VStr "5634472569470976"])
    /\ (forall loc names, isArray id = false ->
                          flattened (VArr loc names) id = (names ++ [id])%list)
    /\ (defaultNamespace a = VBool false ->
        resolvePreKey (VStr "5634472569470976") (VStr "Tag") noParams a
        = (Ok (Path [VStr "Tag"; VStr "5634472569470976"]), a))
    /\ (forall absent,
          isObjectCoercible absent = false ->
          resolvePreKey id kind absent a =
            (if allowNamespaceOverwrite a then Throw TypeError
             else Ok (if isNonEmptyString (defaultNamespace a)
                      then NamespacedPath (defaultNamespace a) (flattened kind id)
                      else Path (flattened kind id)), a)).
Proof.
  intros a id kind params Ha Hp.
  assert (Hrun : forall i k p, isObjectCoercible p = true ->
            exists ns, resolveNamespace p a = (Ok ns, a)
              /\ resolvePreKey i k p a =
                   (Ok (if isNonEmptyString ns
                        then NamespacedPath ns (flattened k i)
                        else Path (flattened k i)), a)).
  { intros i k p Hc.
    pose proof (resolveNamespace_run p a Hc) as Hns.
    eexists. split; [exact Hns |].
    rewrite resolvePreKey_bind, Hns, concat2_flattened.
    erewrite truthy_namespace; [reflexivity | exact Ha |].
    rewrite Hns. reflexivity. }
  split; [apply Hrun, Hp |].
  split; [reflexivity |].
  split; [| split].
  - intros loc names Hid. destruct id; try discriminate; reflexivity.
  - intros Hd.
    destruct (Hrun (VStr "5634472569470976") (VStr "Tag") noParams eq_refl)
      as [ns [Hns Hkey]].
    rewrite Hkey.
    rewrite (resolveNamespace_run noParams a eq_refl) in Hns.
    cbn [propOf noParams lookup typeof String.eqb andb] in Hns.
    rewrite Bool.andb_false_r, Hd in Hns.
    injection Hns as <-. reflexivity.
  - intros absent Habsent. rewrite resolvePreKey_bind.
    unfold resolveNamespace, getProp. run_m. rewrite Habsent.
    destruct (allowNamespaceOverwrite a); [reflexivity |].
    rewrite concat2_flattened.
    unfold namespaceStringOrAbsent in Ha.
    destruct (defaultNamespace a) as [| | [|] | | | | |]; try discriminate;
      reflexivity.
Qed.

Lemma resolvePreKey_flat_path_witness :
  namespaceStringOrAbsent tagAdapter = true
  /\ isObjectCoercible noParams = true
  /\ resolvePreKey (VStr "5634472569470976") (VStr "Tag") noParams tagAdapter
     = (Ok (Path [VStr "Tag"; VStr "5634472569470976"]), tagAdapter).
Proof.
  split; [reflexivity |]. split; [reflexivity |].
  exact (proj1 (proj2 (proj2 (proj2
           (resolvePreKey_flat_path tagAdapter (VStr "5634472569470976")
              (VStr "Tag") noParams eq_refl eq_refl)))) eq_refl).
Defined.

(** C6, as stated, fails on params no property can be read from: when
    the adapter allows namespace overwriting,
    [resolvePreKey("123", "Tag", undefined)] raises a TypeError and
    returns no path. *)
Lemma resolvePreKey_raises_without_params :
  namespaceStringOrAbsent openNamespaceAdapter = true
  /\ allowNamespaceOverwrite openNamespaceAdapter = true
  /\ resolvePreKey (VDsInt "123") (VStr "Tag") VUndef openNamespaceAdapter
     = (Throw TypeError, openNamespaceAdapter)
  /\ resolvePreKey (VDsInt "123") (VStr "Tag") VNull openNamespaceAdapter
     = (Throw TypeError, openNamespaceAdapter)
  /\ resolvePreKey (VDsInt "123") (VStr "Tag") VUndef openNamespaceAdapter
     <> (Ok (NamespacedPath (VStr "NS1") [VStr "Tag"; VDsInt "123"]),
         openNamespaceAdapter)
  /\ resolvePreKey (VDsInt "123") (VStr "Tag") VUndef openNamespaceAdapter
     <> (Ok (Path [VStr "Tag"; VDsInt "123"]), openNamespaceAdapter).
Proof. repeat split; discriminate. Qed.

(** C8. When both [allowKindOverwrite] and [allowNamespaceOverwrite] are
    false, [resolveKind], [resolveNamespace] and [resolvePreKey] do not
    depend on params: any two params values give equal results (for the
    same id and kind), so request parameters cannot change the key that
    is addressed. *)
Theorem resolvers_ignore_params_when_closed :
  forall (a : adapter) (id kind p1 p2 : value),
    allowKindOverwrite a = false ->
    allowNamespaceOverwrite a = false ->
    resolveKind p1 a = resolveKind p2 a
    /\ resolveNamespace p1 a = resolveNamespace p2 a
    /\ resolvePreKey id kind p1 a = resolvePreKey id kind p2 a.
Proof.
  intros a id kind p1 p2 Hk Hn.
  rewrite !(resolveKind_closed _ a Hk).
  rewrite !resolvePreKey_bind, !(resolveNamespace_closed _ a Hn).
  repeat split.
Qed.

Lemma resolvers_ignore_params_when_closed_witness :
  allowKindOverwrite tagAdapter = false
  /\ allowNamespaceOverwrite tagAdapter = false
  /\ resolveKind otherKindParams tagAdapter = resolveKind VUndef tagAdapter
  /\ resolveNamespace otherKindParams tagAdapter = resolveNamespace VUndef tagAdapter
  /\ resolvePreKey (VDsInt "123") (VStr "Tag") otherKindParams tagAdapter
     = resolvePreKey (VDsInt "123") (VStr "Tag") VUndef tagAdapter.
Proof.
  split; [reflexivity |]. split; [reflexivity |].
  exact (resolvers_ignore_params_when_closed tagAdapter (VDsInt "123") (VStr "Tag")
           otherKindParams VUndef eq_refl eq_refl).
Defined.

Lemma callTwice_same {A : Type} (m : M A) (a : adapter) :
  snd (m a) = a -> callTwice m a = (fst (m a), fst (m a), a).
Proof.
  unfold callTwice. destruct (m a) as [r1 a1] eqn:E1. cbn [snd fst].
  intros ->. rewrite E1. reflexivity.
Qed.

(** C10. [resolvePreKey], [resolveKind] and [resolveNamespace] are pure
    with respect to the adapter: called twice in a row on the same
    inputs they give the same outcome both times, and the adapter is
    after the calls what it was before them. *)
Theorem resolvers_pure :
  forall (a : adapter) (id kind params : value),
    (exists r, callTwice (resolveKind params) a = (r, r, a))
    /\ (exists r, callTwice (resolveNamespace params) a = (r, r, a))
    /\ (exists r, callTwice (resolvePreKey id kind params) a = (r, r, a)).
Proof.
  intros a id kind params. repeat split; eexists; apply callTwice_same.
  - apply resolveKind_state.
  - apply resolveNamespace_state.
  - apply resolvePreKey_state.
Qed.

(* ===================================================================== *)
(** ** The store client's configuration *)
(* ===================================================================== *)

(** The outcomes of [resolveConfig], all of them: it raises only on
    options that no property can be read from and on [null] credentials;
    it gives
    up with [false]; or it returns [{projectId, keyFilename}], the key
    file being the truthy one of [options.keyFilename] and the
    environment's [GOOGLE_APPLICATION_CREDENTIALS]. *)
Lemma resolveConfig_outcomes env options :
  match resolveConfig env options with
  | Throw _ =>
      isObjectCoercible options = false
      \/ propOf options "credentials" = VNull
  | Ok NoConfig => True
  | Ok (Config c) =>
      exists p k,
        c = [("projectId", p); ("keyFilename", k)]
        /\ truthy p = true /\ truthy k = true
        /\ (p = propOf options "projectId" \/ p = envValue (GCLOUD_PROJECT env))
        /\ (k = propOf options "keyFilename"
            \/ k = envValue (GOOGLE_APPLICATION_CREDENTIALS env))
  end.
Proof.
  unfold resolveConfig, getProp. run_m.
  destruct (isObjectCoercible options) eqn:Ho; [| left; reflexivity].
  split_ifs; cbn;
    repeat match goal with
           | H : (_ && _)%bool = true |- _ => apply Bool.andb_true_iff in H as [_ H]
           end;
    try exact I;
    try (right; destruct (propOf options "credentials");
         (discriminate || reflexivity));
    do 2 eexists; (split; [reflexivity |]); auto 6.
Qed.

(** A later revision keeps the function under another name. *)
Lemma resolveDatastoreConfig_same env options :
  resolveDatastoreConfig env options = resolveConfig env options.
Proof. reflexivity. Qed.

(** Without a key file, in the options or in the environment, the
    function gives up whatever the credentials are. *)
Lemma resolveConfig_without_key_file env options :
  isObjectCoercible options = true ->
  propOf options "credentials" <> VNull ->
  truthy (propOf options "keyFilename") = false ->
  truthy (envValue (GOOGLE_APPLICATION_CREDENTIALS env)) = false ->
  resolveConfig env options = Ok NoConfig.
Proof.
  intros Ho Hc Hk He.
  pose proof (resolveConfig_outcomes env options) as H.
  destruct (resolveConfig env options) as [[| c] | e]; [reflexivity | |].
  - destruct H as [p [k [_ [_ [Hkt [_ [-> | ->]]]]]]]; congruence.
  - destruct H as [H | H]; congruence.
Qed.

(** C1. Options with a truthy [projectId], no [keyFilename] (and no
    [GOOGLE_APPLICATION_CREDENTIALS] in the environment) and credentials
    holding [client_email] and [private_key] should give
    [{projectId, credentials}].  On
    [{projectId: "my-project", credentials: {client_email: "a@b.c",
    private_key: "k"}}] the function returns [false]: the [return false]
    of line 419 follows the assignment of [config.credentials]. *)
Theorem resolveConfig_drops_explicit_credentials :
  resolveConfig noEnv credentialOptions = Ok NoConfig
  /\ resolveConfig noEnv credentialOptions
     <> Ok (Config [("projectId", propOf credentialOptions "projectId");
                    ("credentials", propOf credentialOptions "credentials")]).
Proof. split; [reflexivity | discriminate]. Qed.

(** C7. For every options value and every environment, what
    [resolveConfig] returns is [false] or a configuration holding
    [projectId] and exactly one of [keyFilename] and [credentials], and
    nothing else; the call returns whenever a property can be read from
    the options and the credentials are not [null]. *)
Theorem resolveConfig_fully_populated :
  forall (env : processEnv) (options : value),
    match resolveConfig env options with
    | Ok NoConfig => True
    | Ok (Config c) => fullyPopulated c = true /\ length c = 2
    | Throw _ =>
        isObjectCoercible options = false
        \/ propOf options "credentials" = VNull
    end.
Proof.
  intros env options.
  pose proof (resolveConfig_outcomes env options) as H.
  destruct (resolveConfig env options) as [[| c] | e]; [exact I | | exact H].
  destruct H as [p [k [-> _]]]. split; reflexivity.
Qed.

(** C9. For every options value and every environment, a configuration
    returned by [resolveConfig] (and by [resolveDatastoreConfig]) has no
    [credentials]: it is [{projectId, keyFilename}] with the key file
    taken from [options.keyFilename] or from the environment, so the
    branch that looks at explicit credentials never returns one. *)
Theorem resolveConfig_never_credentials :
  forall (env : processEnv) (options : value),
    match resolveConfig env options with
    | Ok (Config c) =>
        hasProp "credentials" c = false
        /\ exists p k,
             c = [("projectId", p); ("keyFilename", k)]
             /\ truthy k = true
             /\ (k = propOf options "keyFilename"
                 \/ k = envValue (GOOGLE_APPLICATION_CREDENTIALS env))
    | _ => True
    end
    /\ match resolveDatastoreConfig env options with
       | Ok (Config c) =>
           hasProp "credentials" c = false
           /\ exists p k,
                c = [("projectId", p); ("keyFilename", k)]
                /\ truthy k = true
                /\ (k = propOf options "keyFilename"
                    \/ k = envValue (GOOGLE_APPLICATION_CREDENTIALS env))
       | _ => True
       end.
Proof.
  intros env options.
  change (resolveDatastoreConfig env options) with (resolveConfig env options).
  pose proof (resolveConfig_outcomes env options) as H.
  destruct (resolveConfig env options) as [[| c] | e]; try (split; exact I).
  destruct H as [p [k [-> [_ [Hk [_ Hsrc]]]]]].
  split; (split; [reflexivity | exists p, k; auto]).
Qed.

(* ===================================================================== *)
(** ** Identifiers *)
(* ===================================================================== *)

Lemma decimalDigit_cases c :
  isDecimalDigit c = true ->
  In c ["0"; "1"; "2"; "3"; "4"; "5"; "6"; "7"; "8"; "9"]%char.
Proof.
  destruct c as [[|] [|] [|] [|] [|] [|] [|] [|]]; cbn; intros H;
    try discriminate H; auto 12.
Qed.

Lemma skipDigits_digits s : allChars isDecimalDigit s = true -> skipDigits s = "".
Proof.
  induction s as [| c s IH]; cbn; [reflexivity |].
  intros H. apply Bool.andb_true_iff in H as [Hc Hs].
  rewrite Hc. exact (IH Hs).
Qed.

Lemma trimEnd_digits s : allChars isDecimalDigit s = true -> trimEnd s = s.
Proof.
  induction s as [| c s IH]; cbn; [reflexivity |].
  intros H. apply Bool.andb_true_iff in H as [Hc Hs].
  rewrite (IH Hs). destruct s; [| reflexivity].
  apply decimalDigit_cases in Hc. cbn in Hc.
  repeat (destruct Hc as [<- | Hc]; [reflexivity |]). destruct Hc.
Qed.

(** A string of decimal digits reads as a number. *)
Lemma isNaN_digits s : isDecimalDigits s = true -> isNaN s = false.
Proof.
  unfold isDecimalDigits. destruct s as [| c s]; [discriminate |].
  cbn [nonEmpty andb]. intros H.
  assert (Hc : isDecimalDigit c = true).
  { cbn in H. apply Bool.andb_true_iff in H. apply H. }
  assert (Hu : isStrUnsignedDecimalLiteral (String c s) = true).
  { unfold isStrUnsignedDecimalLiteral.
    destruct (String c s =? "Infinity"); [reflexivity |].
    cbn [startsWithDigit]. rewrite Hc, (skipDigits_digits _ H). reflexivity. }
  assert (Hd : isStrDecimalLiteral (String c s) = true).
  { rewrite <- Hu. apply decimalDigit_cases in Hc. cbn in Hc.
    repeat (destruct Hc as [<- | Hc]; [reflexivity |]). destruct Hc. }
  unfold isNaN.
  assert (Ht : trimStart (String c s) = String c s).
  { apply decimalDigit_cases in Hc. cbn in Hc.
    repeat (destruct Hc as [<- | Hc]; [reflexivity |]). destruct Hc. }
  rewrite Ht, (trimEnd_digits _ H), Hd. reflexivity.
Qed.

Lemma resolveId_run id a :
  resolveId id a =
    (Ok (if isNaN id then VStr (invalidIdMessage ++ id) else VDsInt id), a).
Proof. unfold resolveId. run_m. destruct (isNaN id); reflexivity. Qed.

(** C3, as the code has it. For every string id, [resolveId] returns the
    invalid-format message followed by the id exactly when [isNaN(id)]
    holds, that is when the id does not read as a numeric literal, and
    the store's integer wrapper of the id otherwise.  Every string of
    decimal digits is wrapped; [resolveId("abc")] is the message ending
    in ["abc"], [resolveId("123")] wraps ["123"]; the call never raises
    and leaves the adapter as it was. *)
Theorem resolveId_rejects_what_isNaN :
  forall (a : adapter) (id : string),
    resolveId id a =
      (Ok (if isNaN id then VStr (invalidIdMessage ++ id) else VDsInt id), a)
    /\ (isDecimalDigits id && isNaN id)%bool = false
    /\ resolveId "abc" a = (Ok (VStr (invalidIdMessage ++ "abc")), a)
    /\ resolveId "123" a = (Ok (VDsInt "123"), a).
Proof.
  intros a id. split; [apply resolveId_run |]. split.
  - destruct (isDecimalDigits id) eqn:Hd; [| reflexivity].
    rewrite (isNaN_digits _ Hd). reflexivity.
  - split; apply resolveId_run.
Qed.

(** C3, as stated, fails: ["-5"] and ["1.5"] are no strings of decimal
    digits, and [resolveId] wraps them instead of reporting them. *)
Lemma resolveId_wraps_signed_and_fractional :
  isDecimalDigits "-5" = false
  /\ resolveId "-5" tagAdapter = (Ok (VDsInt "-5"), tagAdapter)
  /\ isDecimalDigits "1.5" = false
  /\ resolveId "1.5" tagAdapter = (Ok (VDsInt "1.5"), tagAdapter).
Proof. repeat split. Qed.

(* ===================================================================== *)
(** ** Error data and [get] *)
(* ===================================================================== *)

Lemma resolveErrorData_run id kind params a :
  plainParams params = true ->
  resolveErrorData id kind params a =
    (Ok ((("id", id)
          :: (if negb (strict_eq kind (defaultKind a)) then [("kind", kind)] else []))
         ++ match propOf params "query" with
            | VObj _ q => if hasProp "undefined" q then [("query", propOf params "query")]
                          else []
            | _ => []
            end)%list, a).
Proof.
  unfold plainParams, resolveErrorData, getProp, hasOwnProperty_noarg, hasProp.
  run_m.
  destruct params; try discriminate.
  cbn [typeof String.eqb Ascii.eqb Bool.eqb negb isObjectCoercible].
  destruct (propOf (VObj loc props) "query") as [| | | | | | l q |];
    try discriminate.
  - intros _. cbn. destruct (negb _); reflexivity.
  - cbn [typeof String.eqb Ascii.eqb Bool.eqb negb].
    destruct (lookup "hasOwnProperty" q); [discriminate |]. intros _.
    destruct (lookup "undefined" q); destruct (negb _); reflexivity.
Qed.

Lemma resolveErrorData_id id kind params a data :
  plainParams params = true ->
  resolveErrorData id kind params a = (Ok data, a) ->
  lookup "id" data = Some id.
Proof.
  intros Hp. rewrite (resolveErrorData_run _ _ _ _ Hp). intros [= <-]. reflexivity.
Qed.

(** C5. The error data of a failed [get] should hold the query whenever
    [params.query] is a non-empty mapping.  For the id ["123"], the
    default kind and [{query: {name: "x"}}] it holds the id alone:
    [hasOwnProperty()] is called without the name of a property. *)
Theorem resolveErrorData_leaves_query_out :
  propOf queryParams "query" = VObj 13 [("name", VStr "x")]
  /\ resolveErrorData (VStr "123") (VStr "Tag") queryParams tagAdapter
     = (Ok [("id", VStr "123")], tagAdapter).
Proof. split; reflexivity. Qed.

Lemma anyResult_false result :
  anyResult result = false <-> result = [] \/ result = [VUndef].
Proof.
  unfold anyResult. destruct result as [| e [| e' rest]]; cbn.
  - split; auto.
  - destruct e; cbn; split; intros H; try discriminate; auto;
      destruct H as [H | H]; discriminate.
  - split; [discriminate | intros [H | H]; discriminate].
Qed.

Lemma anyResult_true result :
  anyResult result = true
  <-> 1 < length result \/ exists e, result = [e] /\ e <> VUndef.
Proof.
  unfold anyResult. destruct result as [| e [| e' rest]]; cbn.
  - split; [discriminate | intros [H | [e [H _]]]; [lia | discriminate]].
  - split.
    + intros H. right. exists e. split; [reflexivity |].
      intros ->. discriminate.
    + intros [H | [e0 [[= <-] Hne]]]; [lia |].
      destruct e; try reflexivity. contradiction.
  - split; [intros _; left; lia | reflexivity].
Qed.

(** [get] on a well-formed id, when no resolver raises. *)
Lemma get_run a id params kind prekey data :
  isNaN id = false ->
  resolveKind params a = (Ok kind, a) ->
  resolvePreKey (VDsInt id) kind params a = (Ok prekey, a) ->
  resolveErrorData (VStr id) kind params a = (Ok data, a) ->
  get id params a =
    (Ok (Some match ds_get (datastore a) (Key prekey) with
              | Resolves result =>
                  if anyResult result then Resolved result
                  else Rejected (Service
                         {| err_class := NotFound;
                            err_message := "Requested entity does not exist.";
                            err_data := data |})
              | Rejects _ =>
                  Rejected (Service
                    {| err_class := GeneralError;
                       err_message :=
                         "Datastore returned error while requesting entity.";
                       err_data := data |})
              end), a).
Proof.
  intros Hid Hk Hpk Hd.
  unfold get. run_m.
  rewrite resolveId_run, Hid. cbn [typeof String.eqb Ascii.eqb Bool.eqb].
  rewrite Hk, Hpk. unfold ds_key, settle.
  destruct (ds_get (datastore a) (Key prekey)) as [result | err].
  - destruct (anyResult result); [reflexivity |]. rewrite Hd. reflexivity.
  - rewrite Hd. reflexivity.
Qed.

(** [get] on an id that is no number: the promise is rejected with a
    BadRequest error whose message is the one of [resolveId]; the request
    that still goes to the store changes nothing about it. *)
Lemma get_bad_request a id params kind data :
  isNaN id = true ->
  resolveKind params a = (Ok kind, a) ->
  resolveErrorData (VStr id) kind params a = (Ok data, a) ->
  get id params a =
    (Ok (Some (Rejected (Service
       {| err_class := BadRequest;
          err_message := invalidIdMessage ++ id;
          err_data := data |}))), a).
Proof.
  intros Hid Hk Hd.
  unfold get. run_m.
  rewrite resolveId_run, Hid. cbn [typeof String.eqb Ascii.eqb Bool.eqb].
  rewrite Hk, Hd, Hk.
  pose proof (resolvePreKey_state (VStr (invalidIdMessage ++ id)) kind params a)
    as Hs.
  destruct (resolvePreKey _ kind params a) as [[prekey | e] a']; cbn [snd] in Hs;
    subst a'; [| reflexivity].
  unfold settle.
  destruct (ds_get (datastore a) _) as [result | err].
  - destruct (anyResult result); [reflexivity |]. rewrite Hd. reflexivity.
  - rewrite Hd. reflexivity.
Qed.

(** Why params are asked to be plain: on [{query: null}] both callbacks
    raise while building the error data, and the promise stays pending. *)
Lemma get_pending_on_null_query :
  get "123" (VObj 14 [("query", VNull)]) tagAdapter = (Ok None, tagAdapter).
Proof. reflexivity. Qed.

(** C2, as the code has it.  Take an adapter whose default kind is valid
    or absent, an id that [isNaN] takes for a number, and params that are
    an object whose query, if any, is a plain object.  The error data of
    the call is [resolveErrorData(id, kind, params)] for the resolved
    kind: it always holds the id, it holds the kind exactly when the
    resolved kind is not [===] the default kind (so when params overrode
    it), and it is [{id}] alone when kind overwriting is off and there is
    no query.  If the store resolves with
    an empty collection or with a single [undefined], the promise is
    rejected with a NotFound error carrying that data; if it resolves
    with more than one element, or with one that is defined, the promise
    is resolved with the collection; if the store rejects, the promise is
    rejected with a GeneralError carrying that data.  The adapter is left
    as it was. *)
Theorem get_settles_with_store_reply :
  forall (a : adapter) (id : string) (params : value),
    isNaN id = false ->
    plainParams params = true ->
    kindValidOrAbsent a = true ->
    exists kind prekey data,
      resolveKind params a = (Ok kind, a)
      /\ resolvePreKey (VDsInt id) kind params a = (Ok prekey, a)
      /\ resolveErrorData (VStr id) kind params a = (Ok data, a)
      /\ lookup "id" data = Some (VStr id)
      /\ kind = (if (allowKindOverwrite a
                     && truthy (isValidKind (propOf params "kind")))%bool
                 then propOf params "kind"
                 else defaultKind a)
      /\ lookup "kind" data =
           (if strict_eq kind (defaultKind a) then None else Some kind)
      /\ (propOf params "query" = VUndef ->
          data = (if strict_eq kind (defaultKind a) then [("id", VStr id)]
                  else [("id", VStr id); ("kind", kind)]))
      /\ (allowKindOverwrite a = false -> propOf params "query" = VUndef ->
          data = [("id", VStr id)])
      /\ match ds_get (datastore a) (Key prekey) with
         | Resolves result =>
             (result = [] \/ result = [VUndef] ->
              get id params a =
                (Ok (Some (Rejected (Service
                   {| err_class := NotFound;
                      err_message := "Requested entity does not exist.";
                      err_data := data |}))), a))
             /\ (1 < length result \/ (exists e, result = [e] /\ e <> VUndef) ->
                 get id params a = (Ok (Some (Resolved result)), a))
         | Rejects _ =>
             get id params a =
               (Ok (Some (Rejected (Service
                  {| err_class := GeneralError;
                     err_message :=
                       "Datastore returned error while requesting entity.";
                     err_data := data |}))), a)
         end.
Proof.
  intros a id params Hid Hp Ha.
  assert (Hc : isObjectCoercible params = true).
  { destruct params; try discriminate; reflexivity. }
  pose proof (resolveKind_run params a Hc) as Hk.
  set (kind := if (allowKindOverwrite a && _)%bool then _ else _) in Hk.
  pose proof (resolveNamespace_run params a Hc) as Hn.
  pose proof (resolvePreKey_bind (VDsInt id) kind params a) as Hpk.
  rewrite Hn in Hpk.
  pose proof (resolveErrorData_run (VStr id) kind params a Hp) as Hd.
  eexists kind, _, _.
  split; [exact Hk |]. split; [exact Hpk |]. split; [exact Hd |].
  split; [reflexivity |]. split; [reflexivity |].
  split; [| split; [| split]].
  - destruct (strict_eq kind (defaultKind a));
      destruct (propOf params "query") as [| | | | | | l q |];
      try destruct (hasProp "undefined" q); reflexivity.
  - intros Hq. rewrite Hq.
    destruct (strict_eq kind (defaultKind a)); reflexivity.
  - intros Hclosed Hq. subst kind. rewrite Hclosed, Hq. cbn [andb].
    rewrite (strict_eq_defaultKind a Ha). reflexivity.
  - rewrite (get_run a id params _ _ _ Hid Hk Hpk Hd).
    destruct (ds_get (datastore a) _) as [result | err]; [| reflexivity].
    split; intros H.
    + apply anyResult_false in H. rewrite H. reflexivity.
    + apply anyResult_true in H. rewrite H. reflexivity.
Qed.

Lemma get_settles_with_store_reply_witness :
  isNaN "123" = false
  /\ plainParams noParams = true
  /\ plainParams otherKindParams = true
  /\ kindValidOrAbsent tagAdapter = true
  /\ kindValidOrAbsent openKindAdapter = true
  /\ get "123" noParams tagAdapter =
       (Ok (Some (Rejected (Service
          {| err_class := NotFound;
             err_message := "Requested entity does not exist.";
             err_data := [("id", VStr "123")] |}))), tagAdapter)
  /\ get "123" otherKindParams openKindAdapter =
       (Ok (Some (Rejected (Service
          {| err_class := NotFound;
             err_message := "Requested entity does not exist.";
             err_data := [("id", VStr "123"); ("kind", VStr "Other")] |}))),
        openKindAdapter).
Proof.
  do 5 (split; [reflexivity |]). split.
  - destruct (get_settles_with_store_reply tagAdapter "123" noParams
                eq_refl eq_refl eq_refl)
      as [kind [prekey [data [_ [_ [_ [_ [_ [_ [_ [Hdata Hget]]]]]]]]]]].
    rewrite (Hdata eq_refl eq_refl) in Hget.
    exact (proj1 Hget (or_introl eq_refl)).
  - destruct (get_settles_with_store_reply openKindAdapter "123" otherKindParams
                eq_refl eq_refl eq_refl)
      as [kind [prekey [data [_ [_ [_ [_ [Hkind [_ [Hdata [_ Hget]]]]]]]]]]].
    rewrite (Hdata eq_refl), Hkind in Hget.
    exact (proj1 Hget (or_introl eq_refl)).
Defined.

(** C2, as stated, fails on the error data: when the adapter allows kind
    overwriting and params name the kind ["Other"], the NotFound error of
    [get("123", {kind: "Other"})] carries [{id, kind}], not [{id}]. *)
Lemma get_not_found_data_holds_kind :
  isDecimalDigits "123" = true
  /\ isNaN "123" = false
  /\ get "123" otherKindParams openKindAdapter =
       (Ok (Some (Rejected (Service
          {| err_class := NotFound;
             err_message := "Requested entity does not exist.";
             err_data := [("id", VStr "123"); ("kind", VStr "Other")] |}))),
        openKindAdapter)
  /\ [("id", VStr "123"); ("kind", VStr "Other")] <> [("id", VStr "123")].
Proof. repeat split. discriminate. Qed.

(* ===================================================================== *)
(** ** Further properties of the adapter *)
(* ===================================================================== *)

Lemma resolveErrorData_state id kind params a :
  snd (resolveErrorData id kind params a) = a.
Proof.
  unfold resolveErrorData. run_m.
  destruct (negb (typeof params =? "undefined")).
  - destruct (getProp params "query") as [q | e]; [| reflexivity].
    destruct (negb (typeof q =? "undefined")); [| reflexivity].
    destruct (hasOwnProperty_noarg q) as [[|] | e]; reflexivity.
  - reflexivity.
Qed.

Lemma resolveId_state id a : snd (resolveId id a) = a.
Proof. rewrite resolveId_run. reflexivity. Qed.

Lemma get_outcome id params a : get id params a = (Ok (getOutcome id params a), a).
Proof.
  unfold get, getOutcome. run_m.
  rewrite resolveId_run.
  pose proof (resolveKind_state params a) as Hk.
  destruct (resolveKind params a) as [[kind | e] a1] eqn:Ek; cbn [snd fst] in *;
    subst a1.
  2:{ destruct (isNaN id); cbn [typeof String.eqb Ascii.eqb Bool.eqb];
      rewrite ?Ek; reflexivity. }
  pose proof (resolveErrorData_state (VStr id) kind params a) as Hd.
  destruct (resolveErrorData (VStr id) kind params a) as [data a1] eqn:Ed;
    cbn [snd fst] in *; subst a1.
  destruct (isNaN id); cbn [typeof String.eqb Ascii.eqb Bool.eqb].
  - rewrite Ek, Ed.
    destruct data as [d | e]; [| reflexivity].
    rewrite Ek.
    pose proof (resolvePreKey_state (VStr (invalidIdMessage ++ id)) kind params a)
      as Hp.
    destruct (resolvePreKey _ kind params a) as [[prekey | e] a1];
      cbn [snd] in Hp; subst a1; [| reflexivity].
    unfold settle.
    destruct (ds_get (datastore a) _) as [result | err];
      [destruct (anyResult result) |]; rewrite ?Ed; reflexivity.
  - rewrite Ek.
    pose proof (resolvePreKey_state (VDsInt id) kind params a) as Hp.
    destruct (resolvePreKey _ kind params a) as [[prekey | e] a1];
      cbn [snd fst] in *; subst a1; [| reflexivity].
    unfold ds_key, settle.
    destruct (ds_get (datastore a) _) as [result | err].
    + destruct (anyResult result); [reflexivity |].
      rewrite Ed. destruct data; [reflexivity |]. rewrite Ed. reflexivity.
    + rewrite Ed. destruct data; reflexivity.
Qed.

Lemma typeof_defined_and_truthy v :
  (negb (typeof v =? "undefined") && truthy v)%bool = truthy v.
Proof. destruct v; reflexivity. Qed.

(** X1. On options a property can be read from, whose credentials are
    not [null], [resolveConfig] returns a configuration exactly when a
    project id and a key file are each available, from the options or
    else from the environment; the configuration is then
    [{projectId, keyFilename}], a truthy option taking precedence over
    the environment variable (an empty variable counts as not set).  In
    every other case it returns [false]. *)
Theorem resolveConfig_needs_project_and_key_file :
  forall (env : processEnv) (options : value),
    isObjectCoercible options = true ->
    propOf options "credentials" <> VNull ->
    let p := propOf options "projectId" in
    let k := propOf options "keyFilename" in
    let pe := envValue (GCLOUD_PROJECT env) in
    let ke := envValue (GOOGLE_APPLICATION_CREDENTIALS env) in
    resolveConfig env options =
      Ok (if ((truthy p || truthy pe) && (truthy k || truthy ke))%bool
          then Config [("projectId", if truthy p then p else pe);
                       ("keyFilename", if truthy k then k else ke)]
          else NoConfig).
Proof.
  intros env options Ho Hc p k pe ke.
  unfold resolveConfig, getProp. run_m. rewrite Ho.
  fold p k pe ke. rewrite !typeof_defined_and_truthy.
  destruct (truthy p); cbn [orb andb].
  - destruct (truthy k); cbn [orb]; [reflexivity |].
    destruct (truthy ke); [reflexivity |].
    destruct (propOf options "credentials") as [| | | | | | l c |];
      try reflexivity; try contradiction; cbn; split_ifs; reflexivity.
  - destruct (truthy pe); cbn [orb andb]; [| reflexivity].
    destruct (truthy k); cbn [orb]; [reflexivity |].
    destruct (truthy ke); [reflexivity |].
    destruct (propOf options "credentials") as [| | | | | | l c |];
      try reflexivity; try contradiction; cbn; split_ifs; reflexivity.
Qed.

Lemma resolveConfig_needs_project_and_key_file_witness :
  isObjectCoercible keyFileOptions = true
  /\ propOf keyFileOptions "credentials" <> VNull
  /\ resolveConfig fullEnv keyFileOptions =
       Ok (Config [("projectId", VStr "my-project");
                   ("keyFilename", VStr "key.json")]).
Proof.
  split; [reflexivity |]. split; [discriminate |].
  exact (resolveConfig_needs_project_and_key_file fullEnv keyFileOptions
           eq_refl ltac:(discriminate)).
Defined.

(** X2. When the options carry a truthy [projectId] and a truthy
    [keyFilename], the result is [{projectId, keyFilename}] with the
    options' values, whatever the environment holds. *)
Theorem resolveConfig_options_before_environment :
  forall (env1 env2 : processEnv) (options : value),
    truthy (propOf options "projectId") = true ->
    truthy (propOf options "keyFilename") = true ->
    resolveConfig env1 options = resolveConfig env2 options
    /\ resolveConfig env1 options =
         Ok (Config [("projectId", propOf options "projectId");
                     ("keyFilename", propOf options "keyFilename")]).
Proof.
  intros env1 env2 options Hp Hk.
  assert (Ho : isObjectCoercible options = true).
  { destruct options; try discriminate; reflexivity. }
  assert (H : forall env, resolveConfig env options =
            Ok (Config [("projectId", propOf options "projectId");
                        ("keyFilename", propOf options "keyFilename")])).
  { intros env. unfold resolveConfig, getProp. run_m. rewrite Ho.
    rewrite !typeof_defined_and_truthy, Hp, Hk. reflexivity. }
  rewrite (H env1), (H env2). split; reflexivity.
Qed.

Lemma resolveConfig_options_before_environment_witness :
  truthy (propOf keyFileOptions "projectId") = true
  /\ truthy (propOf keyFileOptions "keyFilename") = true
  /\ resolveConfig fullEnv keyFileOptions = resolveConfig noEnv keyFileOptions.
Proof.
  split; [reflexivity |]. split; [reflexivity |].
  exact (proj1 (resolveConfig_options_before_environment fullEnv noEnv
                  keyFileOptions eq_refl eq_refl)).
Defined.

(** X3. Without a project id, in the options and in the environment,
    [resolveConfig] returns [false] whatever else the options hold: a
    key file or credentials are not even looked at. *)
Theorem resolveConfig_without_project_id :
  forall (env : processEnv) (options : value),
    isObjectCoercible options = true ->
    truthy (propOf options "projectId") = false ->
    truthy (envValue (GCLOUD_PROJECT env)) = false ->
    resolveConfig env options = Ok NoConfig.
Proof.
  intros env options Ho Hp He.
  unfold resolveConfig, getProp. run_m. rewrite Ho.
  rewrite typeof_defined_and_truthy, Hp, He. reflexivity.
Qed.

Lemma resolveConfig_without_project_id_witness :
  isObjectCoercible (VObj 5 [("keyFilename", VStr "key.json")]) = true
  /\ resolveConfig noEnv (VObj 5 [("keyFilename", VStr "key.json")]) = Ok NoConfig.
Proof.
  split; [reflexivity |].
  exact (resolveConfig_without_project_id noEnv
           (VObj 5 [("keyFilename", VStr "key.json")]) eq_refl eq_refl eq_refl).
Defined.

Lemma factory_steps env backend options :
  datastoreAdapter env backend options =
  if isObjectCoercible options || (typeof options =? "undefined") then
    match (if negb (typeof (propOf options "model") =? "undefined")
           then resolveConfig env (propOf options "model") else Ok NoConfig) with
    | Ok cfg =>
        Ok {| config := cfg;
              datastore := match cfg with
                           | Config c => Datastore backend (Some c)
                           | NoConfig => Datastore backend None
                           end;
              defaultKind :=
                if truthy (isValidKind (propOf options "defaultKind"))
                then propOf options "defaultKind" else VBool false;
              allowKindOverwrite := truthy (propOf options "allowKindOverwrite");
              defaultNamespace :=
                if typeof (propOf options "defaultNamespace") =? "string"
                then propOf options "defaultNamespace" else VBool false;
              allowNamespaceOverwrite :=
                truthy (propOf options "allowNamespaceOverwrite");
              app := VNull; path := VStr "" |}
    | Throw e => Throw e
    end
  else Throw TypeError.
Proof.
  unfold datastoreAdapter, getProp. run_m.
  destruct options; try reflexivity; cbn [typeof String.eqb Ascii.eqb Bool.eqb negb
    isObjectCoercible orb];
    rewrite !typeof_defined_and_truthy;
    destruct (if negb _ then _ else _) as [cfg | e]; try reflexivity;
    destruct (truthy (isValidKind _)); destruct (typeof _ =? "string");
    reflexivity.
Qed.

(** X4. The adapter the factory builds takes [defaultKind] from the
    options only if it is a valid kind, [defaultNamespace] only if it is
    a string (both are [false] otherwise), and allows overwriting of the
    kind or the namespace only on a truthy option; its default kind is
    therefore valid or absent, its default namespace a string or absent,
    and it starts with no app and an empty path.  Without options: no
    defaults and no overwriting. *)
Theorem factory_access_config :
  forall (env : processEnv) (backend : datastoreKey -> storeReply)
         (options : value) (a : adapter),
    datastoreAdapter env backend options = Ok a ->
    defaultKind a =
      (if truthy (isValidKind (propOf options "defaultKind"))
       then propOf options "defaultKind" else VBool false)
    /\ allowKindOverwrite a = truthy (propOf options "allowKindOverwrite")
    /\ defaultNamespace a =
         (if typeof (propOf options "defaultNamespace") =? "string"
          then propOf options "defaultNamespace" else VBool false)
    /\ allowNamespaceOverwrite a = truthy (propOf options "allowNamespaceOverwrite")
    /\ kindValidOrAbsent a = true
    /\ namespaceStringOrAbsent a = true
    /\ app a = VNull /\ path a = VStr "".
Proof.
  intros env backend options a H.
  pose proof (factory_kind _ _ _ _ H) as Hk.
  pose proof (factory_namespace _ _ _ _ H) as Hn.
  rewrite factory_steps in H.
  destruct (_ || _)%bool; [| discriminate].
  destruct (if negb _ then _ else _) as [cfg | e]; [| discriminate].
  injection H as <-. cbn. auto 10.
Qed.

Lemma factory_access_config_witness :
  exists a,
    datastoreAdapter noEnv emptyStore fullOptions = Ok a
    /\ defaultKind a = VStr "Tag"
    /\ allowKindOverwrite a = false
    /\ defaultNamespace a = VStr "NS1"
    /\ allowNamespaceOverwrite a = true.
Proof.
  eexists. split; [reflexivity |].
  pose proof (factory_access_config noEnv emptyStore fullOptions _ eq_refl)
    as [H1 [H2 [H3 [H4 _]]]].
  repeat split; assumption.
Defined.

(** X5. The factory creates the store client with a configuration
    exactly when [resolveConfig] returned one for [options.model], and
    with that very configuration, which is also the adapter's [config];
    it holds a project id and a key file and never credentials.  In every
    other case the client is created without argument and the adapter's
    [config] is [false]. *)
Theorem factory_store_client :
  forall (env : processEnv) (backend : datastoreKey -> storeReply)
         (options : value) (a : adapter),
    datastoreAdapter env backend options = Ok a ->
    ds_get (datastore a) = backend
    /\ (forall c,
          ds_config (datastore a) = Some c
          <-> resolveConfig env (propOf options "model") = Ok (Config c))
    /\ (forall c,
          ds_config (datastore a) = Some c ->
          config a = Config c
          /\ hasProp "projectId" c = true
          /\ hasProp "keyFilename" c = true
          /\ hasProp "credentials" c = false)
    /\ (ds_config (datastore a) = None <-> config a = NoConfig)
    /\ (config a = NoConfig
        <-> forall c, resolveConfig env (propOf options "model") <> Ok (Config c)).
Proof.
  intros env backend options a H.
  rewrite factory_steps in H.
  destruct (_ || _)%bool; [| discriminate].
  pose proof (resolveConfig_outcomes env (propOf options "model")) as Ho.
  destruct (negb (typeof (propOf options "model") =? "undefined")) eqn:Hm.
  - destruct (resolveConfig env (propOf options "model")) as [[| c] | e];
      [| | discriminate]; injection H as <-; cbn.
    + split; [reflexivity |]. split; [intros c; split; discriminate |].
      split; [discriminate |]. split; [split; reflexivity |].
      split; [discriminate | reflexivity].
    + destruct Ho as [p [k [-> _]]].
      split; [reflexivity |].
      split; [intros c; split; intros [= <-]; reflexivity |].
      split; [intros c [= <-]; repeat split |].
      split; [split; discriminate |].
      split; [discriminate |]. intros Hno. elim (Hno _ eq_refl).
  - assert (Hthrow : resolveConfig env (propOf options "model") = Throw TypeError).
    { destruct (propOf options "model"); try discriminate. reflexivity. }
    rewrite Hthrow. injection H as <-. cbn.
    split; [reflexivity |]. split; [intros c; split; discriminate |].
    split; [discriminate |]. split; [split; reflexivity |].
    split; [discriminate | reflexivity].
Qed.

(** [{model: {projectId: "my-project", keyFilename: "key.json"}, ...}]
    reaches the client; [{model: {projectId, credentials}}] does not. *)
Lemma factory_store_client_witness :
  (exists a,
      datastoreAdapter noEnv emptyStore fullOptions = Ok a
      /\ ds_config (datastore a)
         = Some [("projectId", VStr "my-project");
                 ("keyFilename", VStr "key.json")])
  /\ (exists a,
        datastoreAdapter noEnv emptyStore (VObj 6 [("model", credentialOptions)])
        = Ok a
        /\ ds_config (datastore a) = None).
Proof.
  split.
  - eexists. split; [reflexivity |].
    exact (proj2 (proj1 (proj2 (factory_store_client noEnv emptyStore fullOptions
                                  _ eq_refl)) _) eq_refl).
  - eexists. split; [reflexivity |].
    exact (proj2 (proj1 (proj2 (proj2 (proj2
             (factory_store_client noEnv emptyStore
                (VObj 6 [("model", credentialOptions)]) _ eq_refl)))))
             eq_refl).
Defined.

(** X6. The factory raises only on [null]: with options, a model and
    model credentials that are not [null] it returns an adapter (on
    [null] options it raises a TypeError, see [factory_null_options]). *)
Theorem factory_raises_on_null_only :
  forall (env : processEnv) (backend : datastoreKey -> storeReply)
         (options : value),
    options <> VNull ->
    propOf options "model" <> VNull ->
    propOf (propOf options "model") "credentials" <> VNull ->
    exists a, datastoreAdapter env backend options = Ok a.
Proof.
  intros env backend options Ho Hm Hc.
  rewrite factory_steps.
  assert (Hco : (isObjectCoercible options || (typeof options =? "undefined"))%bool
                = true).
  { destruct options; try reflexivity. contradiction. }
  rewrite Hco.
  destruct (negb (typeof (propOf options "model") =? "undefined")) eqn:Hty;
    [| eexists; reflexivity].
  pose proof (resolveConfig_outcomes env (propOf options "model")) as H.
  destruct (resolveConfig env (propOf options "model")) as [cfg | e];
    [eexists; reflexivity |].
  destruct H as [H | H]; [| contradiction].
  destruct (propOf options "model"); try discriminate. contradiction.
Qed.

(** Options with a model whose project id, key file and credentials
    are all read. *)
Lemma factory_raises_on_null_only_witness :
  VObj 6 [("model", credentialOptions)] <> VNull
  /\ propOf (VObj 6 [("model", credentialOptions)]) "model" <> VNull
  /\ propOf (propOf (VObj 6 [("model", credentialOptions)]) "model") "credentials"
     <> VNull
  /\ (exists a,
        datastoreAdapter noEnv emptyStore (VObj 6 [("model", credentialOptions)])
        = Ok a)
  /\ exists a, datastoreAdapter fullEnv emptyStore fullOptions = Ok a.
Proof.
  split; [discriminate |]. split; [discriminate |]. split; [discriminate |].
  split.
  - exact (factory_raises_on_null_only noEnv emptyStore
             (VObj 6 [("model", credentialOptions)])
             ltac:(discriminate) ltac:(discriminate) ltac:(discriminate)).
  - exact (factory_raises_on_null_only fullEnv emptyStore fullOptions
             ltac:(discriminate) ltac:(discriminate) ltac:(discriminate)).
Defined.

Lemma factory_null_options env backend :
  datastoreAdapter env backend VNull = Throw TypeError.
Proof. reflexivity. Qed.

(** X7. [get] never raises and never changes the adapter: whatever
    the id, the params and the store's reply, the call returns a promise.
    What [resolveKind] raises, what [resolvePreKey] raises on a valid id
    and what [resolveErrorData] raises on an invalid id (all inside the
    executor) rejects the promise with that exception.  What
    [resolveErrorData] raises in the callbacks, after the store has
    replied to a valid id, reaches nobody: the promise stays pending,
    unless the store resolved with a result that resolves it. *)
Theorem get_keeps_exceptions_inside :
  forall (a : adapter) (id : string) (params : value),
    exists p,
      get id params a = (Ok p, a)
      /\ (forall e,
            fst (resolveKind params a) = Throw e ->
            p = Some (Rejected (Raised e)))
      /\ (forall kind e,
            fst (resolveKind params a) = Ok kind ->
            isNaN id = false ->
            fst (resolvePreKey (VDsInt id) kind params a) = Throw e ->
            p = Some (Rejected (Raised e)))
      /\ (forall kind e,
            fst (resolveKind params a) = Ok kind ->
            isNaN id = true ->
            fst (resolveErrorData (VStr id) kind params a) = Throw e ->
            p = Some (Rejected (Raised e)))
      /\ (forall kind prekey e,
            fst (resolveKind params a) = Ok kind ->
            isNaN id = false ->
            fst (resolvePreKey (VDsInt id) kind params a) = Ok prekey ->
            fst (resolveErrorData (VStr id) kind params a) = Throw e ->
            p = match ds_get (datastore a) (Key prekey) with
                | Resolves result =>
                    if anyResult result then Some (Resolved result) else None
                | Rejects _ => None
                end).
Proof.
  intros a id params. exists (getOutcome id params a).
  split; [apply get_outcome |]. unfold getOutcome.
  split; [intros e ->; reflexivity |].
  split; [intros kind e -> -> ->; reflexivity |].
  split; [intros kind e -> -> ->; reflexivity |].
  intros kind prekey e -> -> -> ->.
  destruct (ds_get (datastore a) (Key prekey)) as [result | err]; reflexivity.
Qed.

Lemma plainParams_coercible params :
  plainParams params = true -> isObjectCoercible params = true.
Proof. destruct params; try discriminate; reflexivity. Qed.

(** X8. On an id that [isNaN] rejects, and plain params, the promise
    of [get] is rejected with a BadRequest error whose message is the
    invalid-format message ending in the id and whose data hold the id,
    whatever the store answers to the request that is still sent. *)
Theorem get_rejects_invalid_id :
  forall (a : adapter) (id : string) (params : value),
    isNaN id = true ->
    plainParams params = true ->
    exists data,
      get id params a =
        (Ok (Some (Rejected (Service
           {| err_class := BadRequest;
              err_message := invalidIdMessage ++ id;
              err_data := data |}))), a)
      /\ lookup "id" data = Some (VStr id).
Proof.
  intros a id params Hid Hp.
  pose proof (resolveKind_run params a (plainParams_coercible _ Hp)) as Hk.
  set (kind := if (allowKindOverwrite a && _)%bool then _ else _) in Hk.
  pose proof (resolveErrorData_run (VStr id) kind params a Hp) as Hd.
  eexists. split; [| exact (resolveErrorData_id _ _ _ _ _ Hp Hd)].
  apply (get_bad_request a id params kind _ Hid Hk Hd).
Qed.

Lemma get_rejects_invalid_id_witness :
  isNaN "abc" = true
  /\ plainParams noParams = true
  /\ exists data,
       get "abc" noParams tagAdapter =
         (Ok (Some (Rejected (Service
            {| err_class := BadRequest;
               err_message := invalidIdMessage ++ "abc";
               err_data := data |}))), tagAdapter)
       /\ lookup "id" data = Some (VStr "abc").
Proof.
  split; [reflexivity |]. split; [reflexivity |].
  exact (get_rejects_invalid_id tagAdapter "abc" noParams eq_refl eq_refl).
Defined.

Lemma resolveErrorData_undefined id kind a :
  resolveErrorData id kind VUndef a =
    (Ok (("id", id)
         :: (if negb (strict_eq kind (defaultKind a)) then [("kind", kind)] else [])),
     a).
Proof. unfold resolveErrorData. run_m. cbn. destruct (negb _); reflexivity. Qed.

(** X9. [get(id)] without params, on an adapter that allows no
    overwriting: the key is built from the default kind and namespace and
    the id, the error data are [{id}] alone, and the promise is rejected
    with BadRequest on an invalid id, resolved with the store's
    collection, or rejected with NotFound or GeneralError, as the store
    replies. *)
Theorem get_without_params :
  forall (a : adapter) (id : string),
    allowKindOverwrite a = false ->
    allowNamespaceOverwrite a = false ->
    kindValidOrAbsent a = true ->
    let prekey :=
      if truthy (defaultNamespace a)
      then NamespacedPath (defaultNamespace a) (flattened (defaultKind a) (VDsInt id))
      else Path (flattened (defaultKind a) (VDsInt id)) in
    let failed (c : errorClass) (m : string) :=
      Some (Rejected (Service
        {| err_class := c; err_message := m; err_data := [("id", VStr id)] |})) in
    get id VUndef a =
      (Ok (if isNaN id then failed BadRequest (invalidIdMessage ++ id)
           else match ds_get (datastore a) (Key prekey) with
                | Resolves result =>
                    if anyResult result then Some (Resolved result)
                    else failed NotFound "Requested entity does not exist."
                | Rejects _ =>
                    failed GeneralError
                      "Datastore returned error while requesting entity."
                end), a).
Proof.
  intros a id Hk Hn Ha prekey failed.
  rewrite get_outcome. unfold getOutcome.
  rewrite (resolveKind_closed VUndef a Hk). cbn [fst].
  rewrite resolveErrorData_undefined, (strict_eq_defaultKind a Ha). cbn [fst negb].
  rewrite resolvePreKey_bind, (resolveNamespace_closed VUndef a Hn), concat2_flattened.
  cbn [fst]. subst prekey failed. cbn beta.
  destruct (isNaN id); [reflexivity |].
  destruct (truthy (defaultNamespace a));
    destruct (ds_get (datastore a) _) as [result | err]; reflexivity.
Qed.

Lemma get_without_params_witness :
  allowKindOverwrite tagAdapter = false
  /\ allowNamespaceOverwrite tagAdapter = false
  /\ kindValidOrAbsent tagAdapter = true
  /\ get "123" VUndef tagAdapter =
       (Ok (Some (Rejected (Service
          {| err_class := NotFound;
             err_message := "Requested entity does not exist.";
             err_data := [("id", VStr "123")] |}))), tagAdapter).
Proof.
  repeat (split; [reflexivity |]).
  exact (get_without_params tagAdapter "123" eq_refl eq_refl eq_refl).
Defined.

(** X10. When the adapter allows kind overwriting, [get] called with
    [undefined] or [null] params rejects its promise with the raw
    TypeError of reading [params.kind], for every id: no BadRequest,
    NotFound or GeneralError is made. *)
Theorem get_raw_exception_without_params :
  forall (a : adapter) (id : string) (params : value),
    allowKindOverwrite a = true ->
    isObjectCoercible params = false ->
    get id params a = (Ok (Some (Rejected (Raised TypeError))), a).
Proof.
  intros a id params Hk Hp.
  rewrite get_outcome. unfold getOutcome, resolveKind, getProp. run_m.
  rewrite Hk, Hp. reflexivity.
Qed.

Lemma get_raw_exception_without_params_witness :
  allowKindOverwrite openKindAdapter = true
  /\ isObjectCoercible VUndef = false
  /\ get "123" VUndef openKindAdapter
     = (Ok (Some (Rejected (Raised TypeError))), openKindAdapter).
Proof.
  split; [reflexivity |]. split; [reflexivity |].
  exact (get_raw_exception_without_params openKindAdapter "123" VUndef
           eq_refl eq_refl).
Defined.

Lemma resolvePreKey_run id kind params a :
  isObjectCoercible params = true ->
  exists prekey, resolvePreKey id kind params a = (Ok prekey, a).
Proof.
  intros Hp. rewrite resolvePreKey_bind, (resolveNamespace_run params a Hp).
  eexists. reflexivity.
Qed.

(** X11. What a settled promise of [get] says is true.  Resolved with
    a collection: the id passed [isNaN] and the store resolved with that
    collection for the key of the resolved kind and the id, with more
    than one element or one that is defined.  BadRequest: the id failed
    [isNaN].  NotFound: the store resolved with an empty collection or a
    single [undefined].  GeneralError: the store rejected.  The data of
    each error are those of [resolveErrorData].  A raw exception or a
    pending promise occurs only on params that are not plain.  [get]
    itself never raises. *)
Theorem get_outcome_sound :
  forall (a : adapter) (id : string) (params : value),
    match fst (get id params a) with
    | Ok (Some (Resolved result)) =>
        isNaN id = false
        /\ exists kind prekey,
             resolveKind params a = (Ok kind, a)
             /\ resolvePreKey (VDsInt id) kind params a = (Ok prekey, a)
             /\ ds_get (datastore a) (Key prekey) = Resolves result
             /\ (1 < length result \/ exists e, result = [e] /\ e <> VUndef)
    | Ok (Some (Rejected (Service e))) =>
        exists kind,
          resolveKind params a = (Ok kind, a)
          /\ resolveErrorData (VStr id) kind params a = (Ok (err_data e), a)
          /\ match err_class e with
             | BadRequest =>
                 isNaN id = true /\ err_message e = invalidIdMessage ++ id
             | NotFound =>
                 isNaN id = false
                 /\ exists prekey result,
                      resolvePreKey (VDsInt id) kind params a = (Ok prekey, a)
                      /\ ds_get (datastore a) (Key prekey) = Resolves result
                      /\ (result = [] \/ result = [VUndef])
             | GeneralError =>
                 isNaN id = false
                 /\ exists prekey error,
                      resolvePreKey (VDsInt id) kind params a = (Ok prekey, a)
                      /\ ds_get (datastore a) (Key prekey) = Rejects error
             end
    | Ok (Some (Rejected (Raised _))) => plainParams params = false
    | Ok None => isNaN id = false /\ plainParams params = false
    | Throw _ => False
    end.
Proof.
  intros a id params. rewrite get_outcome. cbn [fst]. unfold getOutcome.
  pose proof (resolveKind_state params a) as Hk.
  destruct (resolveKind params a) as [[kind | e] a1] eqn:Ek; cbn [snd fst] in *;
    subst a1.
  2:{ destruct (plainParams params) eqn:Hp; [| reflexivity].
      rewrite (resolveKind_run params a (plainParams_coercible _ Hp)) in Ek.
      discriminate. }
  pose proof (resolveErrorData_state (VStr id) kind params a) as Hd.
  destruct (resolveErrorData (VStr id) kind params a) as [data a1] eqn:Ed;
    cbn [snd fst] in *; subst a1.
  assert (Hdata : forall e, data = Throw e -> plainParams params = false).
  { intros e ->. destruct (plainParams params) eqn:Hp; [| reflexivity].
    rewrite (resolveErrorData_run _ _ _ _ Hp) in Ed. discriminate. }
  destruct (isNaN id) eqn:Hid.
  - destruct data as [d | e]; [| exact (Hdata e eq_refl)].
    exists kind. cbn [err_data err_class err_message].
    repeat (split; [first [reflexivity | eassumption] |]). reflexivity.
  - pose proof (resolvePreKey_state (VDsInt id) kind params a) as Hpk.
    destruct (resolvePreKey (VDsInt id) kind params a) as [[prekey | e] a1] eqn:Ep;
      cbn [snd fst] in *; subst a1.
    2:{ destruct (plainParams params) eqn:Hp; [| reflexivity].
        destruct (resolvePreKey_run (VDsInt id) kind params a
                    (plainParams_coercible _ Hp)) as [pk Hrun].
        rewrite Hrun in Ep. discriminate. }
    destruct (ds_get (datastore a) (Key prekey)) as [result | err] eqn:Er.
    + destruct (anyResult result) eqn:Hany.
      * split; [reflexivity |]. exists kind, prekey.
        repeat (split; [first [reflexivity | eassumption] |]).
        apply anyResult_true, Hany.
      * destruct data as [d | e]; [| split; [reflexivity | exact (Hdata e eq_refl)]].
        exists kind. cbn [err_data err_class err_message].
        repeat (split; [first [reflexivity | eassumption] |]).
        exists prekey, result.
        repeat (split; [first [reflexivity | eassumption] |]).
        apply anyResult_false, Hany.
    + destruct data as [d | e]; [| split; [reflexivity | exact (Hdata e eq_refl)]].
      exists kind. cbn [err_data err_class err_message].
      repeat (split; [first [reflexivity | eassumption] |]).
      exists prekey, err. split; first [reflexivity | eassumption].
Qed.

Lemma frame_resolveKind app' path' params a :
  resolveKind params (afterSetup app' path' a)
  = (fst (resolveKind params a), afterSetup app' path' a).
Proof.
  unfold afterSetup, setup, resolveKind. run_m. cbn.
  destruct (allowKindOverwrite a); [| reflexivity].
  destruct (getProp params "kind"); [| reflexivity].
  split_ifs; reflexivity.
Qed.

Lemma frame_resolveNamespace app' path' params a :
  resolveNamespace params (afterSetup app' path' a)
  = (fst (resolveNamespace params a), afterSetup app' path' a).
Proof.
  unfold afterSetup, setup, resolveNamespace. run_m. cbn.
  destruct (allowNamespaceOverwrite a); [| reflexivity].
  destruct (getProp params "namespace"); [| reflexivity].
  split_ifs; reflexivity.
Qed.

Lemma frame_resolvePreKey app' path' id kind params a :
  resolvePreKey id kind params (afterSetup app' path' a)
  = (fst (resolvePreKey id kind params a), afterSetup app' path' a).
Proof.
  rewrite !resolvePreKey_bind, frame_resolveNamespace.
  pose proof (resolveNamespace_state params a) as H.
  destruct (resolveNamespace params a) as [[ns | e] a1]; reflexivity.
Qed.

Lemma frame_resolveErrorData app' path' id kind params a :
  resolveErrorData id kind params (afterSetup app' path' a)
  = (fst (resolveErrorData id kind params a), afterSetup app' path' a).
Proof.
  unfold afterSetup, setup, resolveErrorData. run_m. cbn.
  destruct (negb (typeof params =? "undefined")); [| reflexivity].
  destruct (getProp params "query") as [q | e]; [| reflexivity].
  destruct (negb (typeof q =? "undefined")); [| reflexivity].
  destruct (hasOwnProperty_noarg q) as [[|] | e]; reflexivity.
Qed.

(** X12. [setup(app, path)] never raises and stores the app and the
    path; the configuration, the store client and the defaults stay as
    they were, and every later [get] settles as it would have before. *)
Theorem setup_changes_app_and_path_only :
  forall (a : adapter) (app' path' : value),
    exists a',
      setup app' path' a = (Ok tt, a')
      /\ app a' = app' /\ path a' = path'
      /\ config a' = config a /\ datastore a' = datastore a
      /\ defaultKind a' = defaultKind a
      /\ allowKindOverwrite a' = allowKindOverwrite a
      /\ defaultNamespace a' = defaultNamespace a
      /\ allowNamespaceOverwrite a' = allowNamespaceOverwrite a
      /\ forall (id : string) (params : value),
           get id params a' = (fst (get id params a), a').
Proof.
  intros a app' path'. exists (afterSetup app' path' a).
  repeat (split; [reflexivity |]).
  intros id params. rewrite !get_outcome. cbn [fst]. f_equal. f_equal.
  unfold getOutcome.
  rewrite frame_resolveKind. cbn [fst].
  destruct (fst (resolveKind params a)) as [kind | e]; [| reflexivity].
  rewrite frame_resolveErrorData, frame_resolvePreKey. reflexivity.
Qed.

(** X13. On an adapter whose default kind is valid or absent and
    whose default namespace is a string or absent, the kind
    [resolveKind] returns is [false], a string or an array that is not
    empty, and the namespace [resolveNamespace] returns is [false] or a
    string, whatever the params hold. *)
Theorem resolved_kind_and_namespace_well_typed :
  forall (a : adapter) (params : value) (kind namespace : value),
    kindValidOrAbsent a = true ->
    namespaceStringOrAbsent a = true ->
    fst (resolveKind params a) = Ok kind ->
    fst (resolveNamespace params a) = Ok namespace ->
    (kind = VBool false
     \/ (exists s, kind = VStr s)
     \/ (exists loc e rest, kind = VArr loc (e :: rest)))
    /\ (namespace = VBool false \/ exists s, namespace = VStr s).
Proof.
  intros a params kind namespace Hk Hn Ek En. split.
  - assert (Hvalid : forall k, truthy (isValidKind k) = true ->
              (exists s, k = VStr s) \/ (exists loc e rest, k = VArr loc (e :: rest))).
    { intros k. rewrite isValidKind_truthy.
      destruct k as [| | | | s | loc [| e rest] | |]; try discriminate; intros _;
        [left | right]; eauto. }
    assert (Hdef : defaultKind a = VBool false
                   \/ (exists s, defaultKind a = VStr s)
                   \/ (exists loc e rest, defaultKind a = VArr loc (e :: rest))).
    { unfold kindValidOrAbsent in Hk.
      destruct (defaultKind a) as [| | [|] | | | | |] eqn:Hd; auto;
        right; apply Hvalid; exact Hk. }
    revert Ek. unfold resolveKind, getProp. run_m.
    destruct (allowKindOverwrite a); cbn [fst].
    + destruct (isObjectCoercible params); cbn [fst]; [| discriminate].
      cbn [negb loose_eq_undefined andb].
      destruct (truthy (isValidKind (propOf params "kind"))) eqn:Hv; cbn [fst].
      * intros [= <-]. right. apply Hvalid, Hv.
      * intros [= <-]. exact Hdef.
    + intros [= <-]. exact Hdef.
  - assert (Hdef : defaultNamespace a = VBool false
                   \/ exists s, defaultNamespace a = VStr s).
    { unfold namespaceStringOrAbsent in Hn.
      destruct (defaultNamespace a) as [| | [|] | | | | |]; try discriminate; eauto. }
    revert En. unfold resolveNamespace, getProp. run_m.
    destruct (allowNamespaceOverwrite a); cbn [fst].
    + destruct (isObjectCoercible params); cbn [fst]; [| discriminate].
      cbn [negb loose_eq_undefined andb].
      destruct (propOf params "namespace"); cbn [typeof String.eqb Ascii.eqb Bool.eqb fst];
        intros [= <-]; eauto.
    + intros [= <-]. exact Hdef.
Qed.

Lemma resolved_kind_and_namespace_well_typed_witness :
  kindValidOrAbsent openKindAdapter = true
  /\ namespaceStringOrAbsent openKindAdapter = true
  /\ fst (resolveKind otherKindParams openKindAdapter) = Ok (VStr "Other")
  /\ fst (resolveNamespace otherKindParams openKindAdapter) = Ok (VBool false)
  /\ (VStr "Other" = VBool false
      \/ (exists s, VStr "Other" = VStr s)
      \/ (exists loc e rest, VStr "Other" = VArr loc (e :: rest))).
Proof.
  repeat (split; [reflexivity |]).
  exact (proj1 (resolved_kind_and_namespace_well_typed openKindAdapter
                  otherKindParams (VStr "Other") (VBool false)
                  eq_refl eq_refl eq_refl eq_refl)).
Defined.

Lemma hasProp_In k (data : obj) : hasProp k data = true -> In k (map fst data).
Proof.
  unfold hasProp. induction data as [| [k' v] data IH]; cbn; [discriminate |].
  destruct (String.eqb_spec k' k); [left; assumption | right; auto].
Qed.

(** X14. On [undefined] or plain params [resolveErrorData] does not
    raise.  Its data hold the id; the kind exactly when the kind is not
    [===] the default kind; the query exactly when the query is an
    object with an own property named ["undefined"] (what
    [hasOwnProperty()] tests); and no other property. *)
Theorem resolveErrorData_fields :
  forall (a : adapter) (id kind params : value),
    params = VUndef \/ plainParams params = true ->
    exists data,
      resolveErrorData id kind params a = (Ok data, a)
      /\ lookup "id" data = Some id
      /\ lookup "kind" data
         = (if strict_eq kind (defaultKind a) then None else Some kind)
      /\ lookup "query" data
         = match propOf params "query" with
           | VObj loc q =>
               if hasProp "undefined" q then Some (VObj loc q) else None
           | _ => None
           end
      /\ forall k, hasProp k data = true -> In k ["id"; "kind"; "query"].
Proof.
  intros a id kind params Hp.
  assert (Hrun : exists withQuery : bool,
            resolveErrorData id kind params a =
              (Ok ((("id", id)
                    :: (if negb (strict_eq kind (defaultKind a))
                        then [("kind", kind)] else []))
                   ++ (if withQuery then [("query", propOf params "query")] else []))%list,
               a)
            /\ match propOf params "query" with
               | VObj loc q => withQuery = hasProp "undefined" q
               | _ => withQuery = false
               end).
  { destruct Hp as [-> | Hp].
    - exists false. rewrite resolveErrorData_undefined, app_nil_r. split; reflexivity.
    - rewrite (resolveErrorData_run _ _ _ _ Hp).
      destruct (propOf params "query") as [| | | | | | loc q |].
      7: exists (hasProp "undefined" q); split; [| reflexivity];
         destruct (hasProp "undefined" q); reflexivity.
      all: exists false; split; reflexivity. }
  destruct Hrun as [withQuery [Hrun Hq]]. rewrite Hrun.
  eexists. split; [reflexivity |].
  split; [reflexivity |]. split; [| split].
  - destruct (strict_eq kind (defaultKind a)); destruct withQuery; reflexivity.
  - destruct (propOf params "query") as [| | | | | | loc q |]; subst withQuery;
      try (destruct (strict_eq kind (defaultKind a)); reflexivity).
    destruct (strict_eq kind (defaultKind a)); destruct (hasProp "undefined" q);
      reflexivity.
  - intros k H. apply hasProp_In in H.
    destruct (strict_eq kind (defaultKind a)); destruct withQuery; cbn in H |- *;
      intuition.
Qed.

Lemma resolveErrorData_fields_witness :
  (otherKindParams = VUndef \/ plainParams otherKindParams = true)
  /\ exists data,
       resolveErrorData (VStr "123") (VStr "Other") otherKindParams tagAdapter
       = (Ok data, tagAdapter)
       /\ lookup "kind" data = Some (VStr "Other").
Proof.
  split; [right; reflexivity |].
  destruct (resolveErrorData_fields tagAdapter (VStr "123") (VStr "Other")
              otherKindParams (or_intror eq_refl))
    as [data [Hrun [_ [Hkind _]]]].
  exists data. split; [exact Hrun | exact Hkind].
Defined.

(** X15. When kind overwriting is allowed, [params.kind] replaces the
    default kind exactly when it is a string, the empty string included,
    or an array that is not empty, whatever its elements; an empty
    array, a number, an object, [null] or no kind fall back to the
    default. *)
Theorem resolveKind_accepted_overrides :
  forall (a : adapter) (params : value),
    allowKindOverwrite a = true ->
    isObjectCoercible params = true ->
    resolveKind params a =
      (Ok match propOf params "kind" with
          | VStr s => VStr s
          | VArr loc (e :: rest) => VArr loc (e :: rest)
          | _ => defaultKind a
          end, a).
Proof.
  intros a params Hk Hp.
  rewrite (resolveKind_run params a Hp), Hk, isValidKind_truthy. cbn [andb].
  destruct (propOf params "kind") as [| | | | s | loc [| e rest] | |]; reflexivity.
Qed.

Lemma resolveKind_accepted_overrides_witness :
  allowKindOverwrite openKindAdapter = true
  /\ isObjectCoercible (VObj 15 [("kind", VStr "")]) = true
  /\ resolveKind (VObj 15 [("kind", VStr "")]) openKindAdapter
     = (Ok (VStr ""), openKindAdapter)
  /\ resolveKind (VObj 16 [("kind", VArr 17 [])]) openKindAdapter
     = (Ok (VStr "Tag"), openKindAdapter).
Proof.
  split; [reflexivity |]. split; [reflexivity |]. split.
  - exact (resolveKind_accepted_overrides openKindAdapter
             (VObj 15 [("kind", VStr "")]) eq_refl eq_refl).
  - exact (resolveKind_accepted_overrides openKindAdapter
             (VObj 16 [("kind", VArr 17 [])]) eq_refl eq_refl).
Defined.

Lemma trimStart_blank s : allChars isStrWhiteSpaceChar s = true -> trimStart s = "".
Proof.
  induction s as [| c s IH]; cbn; [reflexivity |].
  intros H. apply Bool.andb_true_iff in H as [Hc Hs].
  rewrite Hc. exact (IH Hs).
Qed.

(** X16. An id that is empty or made of white space only is taken
    for a number: [resolveId] wraps it as it is and reports no error. *)
Theorem resolveId_wraps_blank_ids :
  forall (a : adapter) (id : string),
    allChars isStrWhiteSpaceChar id = true ->
    resolveId id a = (Ok (VDsInt id), a).
Proof.
  intros a id H. rewrite resolveId_run.
  unfold isNaN. rewrite (trimStart_blank _ H). reflexivity.
Qed.

Lemma resolveId_wraps_blank_ids_witness :
  allChars isStrWhiteSpaceChar "" = true
  /\ allChars isStrWhiteSpaceChar "  " = true
  /\ resolveId "" tagAdapter = (Ok (VDsInt ""), tagAdapter)
  /\ resolveId "  " tagAdapter = (Ok (VDsInt "  "), tagAdapter).
Proof.
  split; [reflexivity |]. split; [reflexivity |]. split.
  - exact (resolveId_wraps_blank_ids tagAdapter "" eq_refl).
  - exact (resolveId_wraps_blank_ids tagAdapter "  " eq_refl).
Defined.

Lemma rev3_factory_steps env backend options :
  Rev3.datastoreAdapter env backend options =
  match datastoreAdapter env backend options with
  | Ok a =>
      let a3 :=
        {| Rev3.datastoreConfig := Some (config a);
           Rev3.datastore := Some (datastore a);
           Rev3.config :=
             {| Rev3.defaultKind := defaultKind a;
                Rev3.allowKindOverwrite := allowKindOverwrite a;
                Rev3.defaultNamespace := defaultNamespace a;
                Rev3.allowNamespaceOverwrite := allowNamespaceOverwrite a |};
           Rev3.app := app a; Rev3.path := path a |} in
      (Ok a3, a3)
  | Throw e => (Throw e, Rev3.newAdapter)
  end.
Proof.
  rewrite factory_steps.
  unfold Rev3.datastoreAdapter, Rev3.setupDatastore, Rev3.resolveConfig, getProp.
  run_m3.
  change (Rev3.isValidKind) with isValidKind.
  change (resolveDatastoreConfig env) with (resolveConfig env).
  destruct options; cbn [typeof String.eqb Ascii.eqb Bool.eqb negb
    isObjectCoercible orb propOf]; try reflexivity.
  cbn [Rev3.datastoreConfig Rev3.datastore Rev3.config Rev3.app Rev3.path
       Rev3.newAdapter Rev3.defaultKind Rev3.allowKindOverwrite
       Rev3.defaultNamespace Rev3.allowNamespaceOverwrite].
  rewrite !typeof_defined_and_truthy.
  set (model := match lookup "model" props with Some x => x | None => VUndef end).
  destruct (negb (typeof model =? "undefined")).
  - destruct (resolveConfig env model) as [[| c] | e]; cbn; [| | reflexivity];
      destruct (truthy (isValidKind _)); cbn;
      destruct (truthy match lookup "allowKindOverwrite" props with
                       | Some x => x | None => VUndef end); cbn;
      destruct (typeof _ =? "string"); cbn;
      destruct (truthy match lookup "allowNamespaceOverwrite" props with
                       | Some x => x | None => VUndef end); reflexivity.
  - destruct (truthy (isValidKind _)); cbn;
      destruct (truthy match lookup "allowKindOverwrite" props with
                       | Some x => x | None => VUndef end); cbn;
      destruct (typeof _ =? "string"); cbn;
      destruct (truthy match lookup "allowNamespaceOverwrite" props with
                       | Some x => x | None => VUndef end); reflexivity.
Qed.

(** X17. The factory of the later revision ([setupDatastore] followed
    by [resolveConfig] on the new adapter) builds the adapter of the
    first revision's factory, field by field, and raises when and what
    that one raises, the adapter then being untouched. *)
Theorem later_factory_agrees :
  forall (env : processEnv) (backend : datastoreKey -> storeReply)
         (options : value),
    match datastoreAdapter env backend options with
    | Ok a =>
        exists a3,
          Rev3.datastoreAdapter env backend options = (Ok a3, a3)
          /\ toRev1 a3 = Some a
    | Throw e =>
        Rev3.datastoreAdapter env backend options = (Throw e, Rev3.newAdapter)
    end.
Proof.
  intros env backend options. rewrite rev3_factory_steps.
  destruct (datastoreAdapter env backend options) as [a | e]; [| reflexivity].
  eexists. split; [reflexivity |]. destruct a; reflexivity.
Qed.

(** X18. The later revision's [resolveConfig(options)] only grants:
    an overwrite flag is set by a truthy option and never cleared, the
    default kind is replaced only by a valid kind of the options and the
    default namespace only by a string; the store client, its
    configuration, the app and the path are not touched; and a second
    call with the same options changes nothing more. *)
Theorem later_resolveConfig_only_grants :
  forall (options : value) (a3 : Rev3.adapter),
    exists r a3',
      Rev3.resolveConfig options a3 = (r, a3')
      /\ Rev3.resolveConfig options a3' = (r, a3')
      /\ Rev3.datastore a3' = Rev3.datastore a3
      /\ Rev3.datastoreConfig a3' = Rev3.datastoreConfig a3
      /\ Rev3.app a3' = Rev3.app a3 /\ Rev3.path a3' = Rev3.path a3
      /\ Rev3.allowKindOverwrite (Rev3.config a3') =
           (Rev3.allowKindOverwrite (Rev3.config a3)
            || (isObjectCoercible options
                && truthy (propOf options "allowKindOverwrite")))%bool
      /\ Rev3.allowNamespaceOverwrite (Rev3.config a3') =
           (Rev3.allowNamespaceOverwrite (Rev3.config a3)
            || (isObjectCoercible options
                && truthy (propOf options "allowNamespaceOverwrite")))%bool
      /\ (Rev3.defaultKind (Rev3.config a3') = Rev3.defaultKind (Rev3.config a3)
          \/ (Rev3.defaultKind (Rev3.config a3') = propOf options "defaultKind"
              /\ truthy (isValidKind (propOf options "defaultKind")) = true))
      /\ (Rev3.defaultNamespace (Rev3.config a3')
            = Rev3.defaultNamespace (Rev3.config a3)
          \/ (Rev3.defaultNamespace (Rev3.config a3')
                = propOf options "defaultNamespace"
              /\ typeof (propOf options "defaultNamespace") = "string")).
Proof.
  intros options [dc ds [dk akw dn anw] ap pa].
  unfold Rev3.resolveConfig, getProp. run_m3.
  change (Rev3.isValidKind) with isValidKind.
  destruct options;
    cbn [typeof String.eqb Ascii.eqb Bool.eqb negb isObjectCoercible andb].
  1-6, 8: do 2 eexists; cbn;
    repeat (split; [first [reflexivity | rewrite Bool.orb_false_r; reflexivity] |]);
    split; left; reflexivity.
  cbn [Rev3.datastoreConfig Rev3.datastore Rev3.config Rev3.app Rev3.path
       Rev3.defaultKind Rev3.allowKindOverwrite
       Rev3.defaultNamespace Rev3.allowNamespaceOverwrite].
  rewrite !typeof_defined_and_truthy.
  destruct (truthy (isValidKind (propOf (VObj loc props) "defaultKind"))) eqn:Hk;
    destruct (truthy (propOf (VObj loc props) "allowKindOverwrite")) eqn:Hak;
    destruct (typeof (propOf (VObj loc props) "defaultNamespace") =? "string") eqn:Hn;
    destruct (truthy (propOf (VObj loc props) "allowNamespaceOverwrite")) eqn:Han;
    do 2 eexists; cbn;
    repeat (split;
            [first [reflexivity
                   | rewrite ?Bool.orb_false_r, ?Bool.orb_true_r; reflexivity] |]);
    split;
    first [left; reflexivity
          | right; split; [reflexivity |];
            first [reflexivity | apply String.eqb_eq; assumption]].
Qed.

Lemma rev3_resolveKind a3 a params :
  toRev1 a3 = Some a ->
  Rev3.resolveKind params a3 = (fst (resolveKind params a), a3).
Proof.
  destruct a3 as [[dc |] [ds |] [dk akw dn anw] ap pa]; try discriminate.
  intros [= <-]. unfold Rev3.resolveKind, resolveKind. run_m3. run_m.
  change (Rev3.isValidKind) with isValidKind. cbn.
  destruct akw; [| reflexivity].
  destruct (getProp params "kind"); [| reflexivity].
  split_ifs; reflexivity.
Qed.

Lemma rev3_resolveNamespace a3 a params :
  toRev1 a3 = Some a ->
  Rev3.resolveNamespace params a3 = (fst (resolveNamespace params a), a3).
Proof.
  destruct a3 as [[dc |] [ds |] [dk akw dn anw] ap pa]; try discriminate.
  intros [= <-]. unfold Rev3.resolveNamespace, resolveNamespace. run_m3. run_m.
  cbn.
  destruct anw; [| reflexivity].
  destruct (getProp params "namespace"); [| reflexivity].
  split_ifs; reflexivity.
Qed.

Lemma rev3_resolvePreKey a3 a id kind params :
  toRev1 a3 = Some a ->
  Rev3.resolvePreKey id kind params a3 = (fst (resolvePreKey id kind params a), a3).
Proof.
  intros H. unfold Rev3.resolvePreKey. run_m3.
  rewrite (rev3_resolveNamespace a3 a params H), resolvePreKey_bind.
  destruct (resolveNamespace params a) as [[ns | e] a1]; cbn [fst];
    [destruct (truthy ns) |]; reflexivity.
Qed.

Lemma rev3_resolveErrorData a3 a id kind params :
  toRev1 a3 = Some a ->
  Rev3.resolveErrorData id kind params a3
  = (fst (resolveErrorData id kind params a), a3).
Proof.
  destruct a3 as [[dc |] [ds |] [dk akw dn anw] ap pa]; try discriminate.
  intros [= <-]. unfold Rev3.resolveErrorData, resolveErrorData. run_m3. run_m.
  cbn.
  destruct (negb (typeof params =? "undefined")); [| reflexivity].
  destruct (getProp params "query") as [q | e]; [| reflexivity].
  destruct (negb (typeof q =? "undefined")); [| reflexivity].
  destruct (hasOwnProperty_noarg q) as [[|] | e]; reflexivity.
Qed.

Lemma rev3_resolveId a3 a id :
  toRev1 a3 = Some a ->
  Rev3.resolveId id a3 = (fst (resolveId id a), a3).
Proof.
  destruct a3 as [[dc |] [ds |] [dk akw dn anw] ap pa]; try discriminate.
  intros [= <-]. rewrite resolveId_run. unfold Rev3.resolveId. run_m3. cbn.
  destruct (isNaN id); reflexivity.
Qed.

Lemma rev3_theDatastore a3 a :
  toRev1 a3 = Some a -> Rev3.theDatastore a3 = (Ok (datastore a), a3).
Proof.
  destruct a3 as [[dc |] [ds |] [dk akw dn anw] ap pa]; try discriminate.
  intros [= <-]. reflexivity.
Qed.

(** X19. On an adapter of the later revision whose store client is
    set up, [resolveId], [resolveKind], [resolveNamespace],
    [resolvePreKey] and [resolveErrorData] return what the first
    revision's functions return on the adapter it stands for, and do not
    change the adapter. *)
Theorem later_resolvers_agree :
  forall (a3 : Rev3.adapter) (a : adapter) (id : string)
         (key kind params : value),
    toRev1 a3 = Some a ->
    Rev3.resolveId id a3 = (fst (resolveId id a), a3)
    /\ Rev3.resolveKind params a3 = (fst (resolveKind params a), a3)
    /\ Rev3.resolveNamespace params a3 = (fst (resolveNamespace params a), a3)
    /\ Rev3.resolvePreKey key kind params a3
       = (fst (resolvePreKey key kind params a), a3)
    /\ Rev3.resolveErrorData key kind params a3
       = (fst (resolveErrorData key kind params a), a3).
Proof.
  intros a3 a id key kind params H.
  split; [apply rev3_resolveId, H |].
  split; [apply rev3_resolveKind, H |].
  split; [apply rev3_resolveNamespace, H |].
  split; [apply rev3_resolvePreKey, H | apply rev3_resolveErrorData, H].
Qed.

Lemma later_resolvers_agree_witness :
  toRev1 tagAdapter3 = Some tagAdapter
  /\ Rev3.resolveKind otherKindParams tagAdapter3 = (Ok (VStr "Tag"), tagAdapter3)
  /\ Rev3.resolveId "123" tagAdapter3 = (Ok (VDsInt "123"), tagAdapter3).
Proof.
  split; [reflexivity |].
  pose proof (later_resolvers_agree tagAdapter3 tagAdapter "123" (VDsInt "123")
                (VStr "Tag") otherKindParams eq_refl) as [Hid [Hkind _]].
  split; [exact Hkind | exact Hid].
Defined.

(** X20. On an adapter of the later revision whose store client is
    set up, [get] leaves the promise the first revision's [get] leaves
    on the adapter it stands for, and does not change the adapter. *)
Theorem later_get_agrees :
  forall (a3 : Rev3.adapter) (a : adapter) (id : string) (params : value),
    toRev1 a3 = Some a ->
    Rev3.get id params a3 = (fst (get id params a), a3).
Proof.
  intros a3 a id params H.
  rewrite get_outcome. cbn [fst]. unfold getOutcome, Rev3.get.
  cbv [bind ret gets MonadState.get put raise catch Rev3.liftR
       Rev3.Monad_M Rev3.MonadState_M Rev3.MonadExc_M Monad_result].
  rewrite (rev3_resolveId a3 a id H), resolveId_run. cbn [fst].
  destruct (isNaN id); cbn [typeof String.eqb Ascii.eqb Bool.eqb].
  - rewrite (rev3_resolveKind a3 a params H).
    destruct (fst (resolveKind params a)) as [kind | e] eqn:Ek; [| reflexivity].
    rewrite (rev3_resolveErrorData a3 a _ _ _ H).
    destruct (fst (resolveErrorData (VStr id) kind params a)) as [d | e] eqn:Ed;
      [| reflexivity].
    rewrite (rev3_resolveKind a3 a params H), Ek.
    rewrite (rev3_theDatastore a3 a H).
    rewrite (rev3_resolvePreKey a3 a _ _ _ H).
    destruct (fst (resolvePreKey _ kind params a)) as [prekey | e];
      [| reflexivity].
    unfold settle.
    destruct (ds_get (datastore a) _) as [result | err];
      [destruct (anyResult result) |];
      rewrite ?(rev3_resolveErrorData a3 a _ _ _ H), ?Ed; reflexivity.
  - rewrite (rev3_resolveKind a3 a params H).
    destruct (fst (resolveKind params a)) as [kind | e] eqn:Ek; [| reflexivity].
    rewrite (rev3_theDatastore a3 a H).
    rewrite (rev3_resolvePreKey a3 a _ _ _ H).
    destruct (fst (resolvePreKey _ kind params a)) as [prekey | e];
      [| reflexivity].
    unfold settle, ds_key.
    destruct (ds_get (datastore a) _) as [result | err].
    + destruct (anyResult result); [reflexivity |].
      rewrite (rev3_resolveErrorData a3 a _ _ _ H).
      destruct (fst (resolveErrorData (VStr id) kind params a)) as [d | e] eqn:Ed;
        [reflexivity |].
      rewrite (rev3_resolveErrorData a3 a _ _ _ H), Ed. reflexivity.
    + rewrite (rev3_resolveErrorData a3 a _ _ _ H).
      destruct (fst (resolveErrorData (VStr id) kind params a)); reflexivity.
Qed.

Lemma later_get_agrees_witness :
  toRev1 tagAdapter3 = Some tagAdapter
  /\ Rev3.get "123" noParams tagAdapter3 =
       (Ok (Some (Rejected (Service
          {| err_class := NotFound;
             err_message := "Requested entity does not exist.";
             err_data := [("id", VStr "123")] |}))), tagAdapter3).
Proof.
  split; [reflexivity |].
  exact (later_get_agrees tagAdapter3 tagAdapter "123" noParams eq_refl).
Defined.

(** X21. When namespace overwriting is allowed and params carry a
    string namespace, the key is built with that namespace and not with
    the default one; an empty string gives the bare path, so that it
    takes the request out of the configured namespace. *)
Theorem resolvePreKey_namespace_override :
  forall (a : adapter) (id kind params : value) (s : string),
    allowNamespaceOverwrite a = true ->
    propOf params "namespace" = VStr s ->
    resolvePreKey id kind params a =
      (Ok (if s =? "" then Path (flattened kind id)
           else NamespacedPath (VStr s) (flattened kind id)), a).
Proof.
  intros a id kind params s Ha Hs.
  assert (Hp : isObjectCoercible params = true).
  { destruct params; try discriminate; reflexivity. }
  rewrite resolvePreKey_bind, (resolveNamespace_run params a Hp), Ha, Hs.
  cbn [andb typeof]. rewrite String.eqb_refl, concat2_flattened.
  cbn [truthy]. destruct (s =? ""); reflexivity.
Qed.

Lemma resolvePreKey_namespace_override_witness :
  allowNamespaceOverwrite openNamespaceAdapter = true
  /\ propOf (VObj 18 [("namespace", VStr "")]) "namespace" = VStr ""
  /\ resolvePreKey (VDsInt "123") (VStr "Tag") (VObj 18 [("namespace", VStr "")])
       openNamespaceAdapter
     = (Ok (Path [VStr "Tag"; VDsInt "123"]), openNamespaceAdapter)
  /\ resolvePreKey (VDsInt "123") (VStr "Tag") noParams openNamespaceAdapter
     = (Ok (NamespacedPath (VStr "NS1") [VStr "Tag"; VDsInt "123"]),
        openNamespaceAdapter).
Proof.
  split; [reflexivity |]. split; [reflexivity |]. split; [| reflexivity].
  exact (resolvePreKey_namespace_override openNamespaceAdapter (VDsInt "123")
           (VStr "Tag") (VObj 18 [("namespace", VStr "")]) "" eq_refl eq_refl).
Defined.
